(** * Warehouse ledger (streamlit_gudang_app.py): model and properties

    A shallow embedding of the inventory ledger of the Streamlit warehouse
    application: the [items] and [transactions] tables, the helpers
    [upsert_item], [adjust_item_for_out], [add_transaction_record],
    [generate_trx_code], [load_inventory_from_excel], the four submit
    handlers of the receipt and issue forms, and the reporting functions
    [totals_for_period] and [compare_months].

    Modelling conventions.
    - SQLite [REAL] columns and Python floats are modelled by exact
      rationals [Q]; floating-point rounding is not modelled.
    - Python [str] values are modelled by [string] (sequences of 8-bit
      characters); whitespace is Python's whitespace below code point 128.
    - [datetime.now()] and [random.randint] are oracles carried by the
      world state: a clock and a random source indexed by the number of
      reads made so far.
    - Texts shown with [st.error]/[st.success] are modelled by the
      constructors of [UiMsg], one per call site, carrying the values the
      text is formatted from.
    - [TEXT] columns that hold a timestamp hold the [Timestamp] itself. *)

From Stdlib Require Import String Ascii List Bool ZArith NArith QArith Lia Lqa.
From Stdlib Require Import DecimalString DecimalZ DecimalN.
From Stdlib Require Import Sorted Permutation.
Import ListNotations.
Open Scope string_scope.
Open Scope Z_scope.

(* ------------------------------------------------------------------ *)
(** * Python string helpers                                            *)
(* ------------------------------------------------------------------ *)

Module PyStr.

(** [c.isspace()] for a character below 128: TAB, LF, VT, FF, CR, the
    separators FS, GS, RS, US, and the blank. *)
Definition isspace (c : ascii) : bool :=
  let n := nat_of_ascii c in
  ((9 <=? n) && (n <=? 13))%nat || ((28 <=? n) && (n <=? 32))%nat.

Fixpoint lstrip (s : string) : string :=
  match s with
  | EmptyString => EmptyString
  | String c s' => if isspace c then lstrip s' else s
  end.

Fixpoint rstrip (s : string) : string :=
  match s with
  | EmptyString => EmptyString
  | String c s' =>
      match rstrip s' with
      | EmptyString => if isspace c then EmptyString else String c EmptyString
      | r => String c r
      end
  end.

(** [s.strip()] *)
Definition strip (s : string) : string := rstrip (lstrip s).

Definition upper_char (c : ascii) : ascii :=
  let n := nat_of_ascii c in
  if ((97 <=? n) && (n <=? 122))%nat then ascii_of_nat (n - 32) else c.

Definition lower_char (c : ascii) : ascii :=
  let n := nat_of_ascii c in
  if ((65 <=? n) && (n <=? 90))%nat then ascii_of_nat (n + 32) else c.

Fixpoint map_chars (f : ascii -> ascii) (s : string) : string :=
  match s with
  | EmptyString => EmptyString
  | String c s' => String (f c) (map_chars f s')
  end.

(** [s.upper()] and [s.lower()] *)
Definition upper : string -> string := map_chars upper_char.
Definition lower : string -> string := map_chars lower_char.

(** [str(n)] / [f"{n}"] for an integer. *)
Definition of_int (n : Z) : string := NilZero.string_of_int (Z.to_int n).

(** [s.rjust(w, "0")] for a string of digits. *)
Definition zfill (w : nat) (s : string) : string :=
  let fix zeros (k : nat) : string :=
    match k with
    | O => EmptyString
    | S k' => String "0" (zeros k')
    end in
  zeros (w - String.length s)%nat ++ s.

(** [not s] for a string. *)
Definition falsy (s : string) : bool :=
  match s with EmptyString => true | _ => false end.

End PyStr.

(* ------------------------------------------------------------------ *)
(** * Dates and timestamps                                             *)
(* ------------------------------------------------------------------ *)

Record Date := mkDate { d_year : Z; d_month : Z; d_day : Z }.

Record Timestamp := mkTs {
  ts_year : Z; ts_month : Z; ts_day : Z;
  ts_hour : Z; ts_minute : Z; ts_second : Z; ts_micro : Z }.

(** [ts.date()] *)
Definition date_of (t : Timestamp) : Date :=
  mkDate (ts_year t) (ts_month t) (ts_day t).


(** A month bucket, as [to_period('M')] gives it. *)
Definition Period : Type := (Z * Z)%type.

Definition to_period_M (t : Timestamp) : Period := (ts_year t, ts_month t).

(** First instant of a month. *)
Definition period_start (p : Period) : Timestamp :=
  mkTs (fst p) (snd p) 1 0 0 0 0.

Definition ts_eqb (a b : Timestamp) : bool :=
  (ts_year a =? ts_year b) && (ts_month a =? ts_month b)
  && (ts_day a =? ts_day b) && (ts_hour a =? ts_hour b)
  && (ts_minute a =? ts_minute b) && (ts_second a =? ts_second b)
  && (ts_micro a =? ts_micro b).

(** [t.strftime('%Y%m%d-%H%M%S')] *)
Definition strftime_code (t : Timestamp) : string :=
  PyStr.zfill 4 (PyStr.of_int (ts_year t))
  ++ PyStr.zfill 2 (PyStr.of_int (ts_month t))
  ++ PyStr.zfill 2 (PyStr.of_int (ts_day t))
  ++ "-"
  ++ PyStr.zfill 2 (PyStr.of_int (ts_hour t))
  ++ PyStr.zfill 2 (PyStr.of_int (ts_minute t))
  ++ PyStr.zfill 2 (PyStr.of_int (ts_second t)).

(* ------------------------------------------------------------------ *)
(** * Rational comparisons as the code writes them                     *)
(* ------------------------------------------------------------------ *)

(** [a < b] *)
Definition Qltb (a b : Q) : bool := negb (Qle_bool b a).
(** [a <= b] *)
Definition Qleb (a b : Q) : bool := Qle_bool a b.

(* ------------------------------------------------------------------ *)
(** * The database                                                     *)
(* ------------------------------------------------------------------ *)

(** Values of the [expiry_date] columns: the text typed in a form, or the
    date read from an imported sheet. *)
Inductive Expiry :=
| ExpText (s : string)
| ExpDate (d : Date).

(** A row of table [items]. *)
Record Item := mkItem {
  item_id : Z;
  item_name : string;
  item_category : string;
  item_unit : string;
  item_quantity : Q;
  item_min_stock : Q;
  item_rack_location : string;
  item_expiry_date : option Expiry;
  item_created_at : Timestamp;
  item_updated_at : Timestamp }.

(** A row of table [transactions]. *)
Record Trx := mkTrx {
  trx_id : Z;
  trx_type : string;
  trx_item_id : option Z;
  trx_name : string;
  trx_quantity : Q;
  trx_unit : string;
  trx_requester : option string;
  trx_supplier : option string;
  trx_note : string;
  trx_created_at : Timestamp;
  trx_bundle_code : string;
  trx_trx_code : string;
  trx_expiry_date : option Expiry }.

(** The two tables, rows in insertion order, each with the counter of its
    [AUTOINCREMENT] key. *)
Record DB := mkDB {
  items : list Item;
  items_seq : Z;
  transactions : list Trx;
  transactions_seq : Z }.

(** [init_db()] on a fresh file. *)
Definition init_db : DB := mkDB [] 0 [] 0.

(** The world a handler runs in: the database and the two oracles. *)
Record World := mkWorld {
  w_db : DB;
  w_clock : nat -> Timestamp;
  w_clock_reads : nat;
  w_random : nat -> Z;
  w_random_reads : nat }.

Definition init_world (clock : nat -> Timestamp) (rnd : nat -> Z) : World :=
  mkWorld init_db clock 0 rnd 0.

(* ------------------------------------------------------------------ *)
(** * A state monad over the world                                     *)
(* ------------------------------------------------------------------ *)

Definition M (A : Type) : Type := World -> A * World.

Definition ret {A} (a : A) : M A := fun w => (a, w).

Definition bind {A B} (m : M A) (k : A -> M B) : M B :=
  fun w => let (a, w') := m w in k a w'.

Declare Scope py_scope.
Delimit Scope py_scope with py.
Notation "x <- m ;; k" := (bind m (fun x => k))
  (at level 61, m at next level, right associativity) : py_scope.
Notation "m ;;; k" := (bind m (fun _ => k))
  (at level 61, right associativity) : py_scope.
Open Scope py_scope.

Definition exec {A} (m : M A) (w : World) : World := snd (m w).
Definition eval {A} (m : M A) (w : World) : A := fst (m w).

Definition get_db : M DB := fun w => (w_db w, w).

Definition put_db (d : DB) : M unit :=
  fun w => (tt, mkWorld d (w_clock w) (w_clock_reads w)
                        (w_random w) (w_random_reads w)).

(** [datetime.now()] *)
Definition datetime_now : M Timestamp :=
  fun w => (w_clock w (w_clock_reads w),
            mkWorld (w_db w) (w_clock w) (S (w_clock_reads w))
                    (w_random w) (w_random_reads w)).

(** [random.randint(lo, hi)], for [lo <= hi] *)
Definition randint (lo hi : Z) : M Z :=
  fun w => (lo + (w_random w (w_random_reads w)) mod (hi - lo + 1),
            mkWorld (w_db w) (w_clock w) (w_clock_reads w)
                    (w_random w) (S (w_random_reads w))).

(** [for x in xs: body(x)] *)
Fixpoint for_each {A} (xs : list A) (body : A -> M unit) : M unit :=
  match xs with
  | [] => ret tt
  | x :: xs' => body x ;;; for_each xs' body
  end.

(* ------------------------------------------------------------------ *)
(** * Helpers of the application                                       *)
(* ------------------------------------------------------------------ *)

(** [f"TRX-{trx_type.upper()}-{now}-{random.randint(100,999)}"] *)
Definition generate_trx_code (trx_type : string) : M string :=
  t <- datetime_now ;;
  r <- randint 100 999 ;;
  ret ("TRX-" ++ PyStr.upper trx_type ++ "-" ++ strftime_code t
         ++ "-" ++ PyStr.of_int r).

(** [WHERE name=? AND unit=?] *)
Definition item_matches (name unit : string) (it : Item) : bool :=
  String.eqb (item_name it) name && String.eqb (item_unit it) unit.

(** [SELECT ... FROM items WHERE name=? AND unit=?] then [fetchone()] *)
Definition select_item (name unit : string) (d : DB) : option Item :=
  find (item_matches name unit) (items d).

(** [UPDATE items SET ... WHERE id=?] *)
Definition update_items (id : Z) (f : Item -> Item) (d : DB) : DB :=
  mkDB (map (fun it => if item_id it =? id then f it else it) (items d))
       (items_seq d) (transactions d) (transactions_seq d).

(** [INSERT INTO items(...)], returning [cur.lastrowid] *)
Definition insert_item (mk : Z -> Item) (d : DB) : Z * DB :=
  let id := items_seq d + 1 in
  (id, mkDB (items d ++ [mk id]) id (transactions d) (transactions_seq d)).

(** [INSERT INTO transactions(...)] *)
Definition insert_trx (mk : Z -> Trx) (d : DB) : DB :=
  let id := transactions_seq d + 1 in
  mkDB (items d) (items_seq d) (transactions d ++ [mk id]) id.

Definition upsert_item (name category unit : string) (quantity min_stock : Q)
    (rack_location : string) (expiry_date : option Expiry) : M Z :=
  let name := PyStr.strip name in
  now <- datetime_now ;;
  d <- get_db ;;
  match select_item name unit d with
  | Some row =>
      let id := item_id row in
      let existing_quantity := item_quantity row in
      let new_quantity := (existing_quantity + quantity)%Q in
      put_db (update_items id
                (fun it => mkItem (item_id it) (item_name it)
                             category (item_unit it) new_quantity min_stock
                             rack_location expiry_date now now) d) ;;;
      ret id
  | None =>
      let (id, d') :=
        insert_item (fun id => mkItem id name category unit quantity
                                 min_stock rack_location expiry_date now now) d in
      put_db d' ;;;
      ret id
  end.

(** The error texts of [adjust_item_for_out]. *)
Inductive AdjustError :=
| ItemTidakDitemukan
| StokTidakCukup (tersedia : Q).

Definition adjust_item_for_out (name unit : string) (quantity : Q)
    : M (option Z * option AdjustError) :=
  d <- get_db ;;
  match select_item name unit d with
  | None => ret (None, Some ItemTidakDitemukan)
  | Some row =>
      let id := item_id row in
      let existing_quantity := item_quantity row in
      if Qltb existing_quantity quantity then
        ret (None, Some (StokTidakCukup existing_quantity))
      else
        let new_quantity := (existing_quantity - quantity)%Q in
        put_db (update_items id
                  (fun it => mkItem (item_id it) (item_name it)
                               (item_category it) (item_unit it) new_quantity
                               (item_min_stock it) (item_rack_location it)
                               (item_expiry_date it) (item_created_at it)
                               (item_updated_at it)) d) ;;;
        ret (Some id, None)
  end.

Definition add_transaction_record (trx_type : string) (item_id : option Z)
    (name : string) (quantity : Q) (unit : string)
    (requester supplier : option string) (note bundle_code trx_code : string)
    (expiry_date : option Expiry) : M Datatypes.unit :=
  now <- datetime_now ;;
  d <- get_db ;;
  put_db (insert_trx (fun id => mkTrx id trx_type item_id name quantity unit
                                  requester supplier note now bundle_code
                                  trx_code expiry_date) d).

(* ------------------------------------------------------------------ *)
(** * The submit handlers of the forms                                 *)
(* ------------------------------------------------------------------ *)

(** Why a line of a batch issue is refused by the stock check. *)
Inductive Reason :=
| ReasonNotFound                          (* 'Item tidak ditemukan' *)
| ReasonStock (stok diminta : Q).         (* 'Stok: .., diminta: ..' *)

(** What the page shows after a submit, one constructor per
    [st.error]/[st.success] call. *)
Inductive UiMsg :=
| ErrInFields                     (* 'Nama, jumlah (>0) dan satuan harus diisi' *)
| ErrOutFields                    (* 'Nama, jumlah (>0), satuan dan nama peminta harus diisi' *)
| ErrNoItems                      (* 'Tidak ada item untuk disimpan' *)
| ErrRequester                    (* 'Nama peminta harus diisi' *)
| ErrLines (baris : list nat)     (* one 'Baris n: ...' per invalid line *)
| ErrItemNotFound                 (* 'Item tidak ditemukan di inventory' *)
| ErrStock (stok diminta : Q)     (* 'Stok tidak cukup. Stok: .., diminta: ..' *)
| ErrRejected (insufficient : list (string * Reason))
                                  (* 'Transaksi ditolak karena ...' *)
| Sukses (trx_code : string).     (* 'Sukses ... Trx: ..' *)

(** Form [in_single], the run in which [submitted] is true. The text of
    the expiry field is read by the form and not passed on. *)
Definition in_single_submit (name unit : string) (quantity : Q)
    (category : string) (min_stock : Q) (supplier rack_location : string)
    (expiry_date : string) : M UiMsg :=
  trx_code <- generate_trx_code "in" ;;
  if PyStr.falsy name || Qleb quantity 0 || PyStr.falsy unit then
    ret ErrInFields
  else
    item_id <- upsert_item name category unit quantity min_stock
                 rack_location None ;;
    let bundle := trx_code in
    add_transaction_record "in" (Some item_id) name quantity unit None
      (Some supplier) "Single-item masuk" bundle trx_code None ;;;
    ret (Sukses trx_code).

(** A row of [st.session_state.in_multi]. *)
Record InLine := mkInLine {
  il_name : string;
  il_unit : string;
  il_quantity : Q;
  il_category : string;
  il_min_stock : Q;
  il_rack_location : string;
  il_expiry_date : string }.

(** [[f'Baris {idx+1}: ...' for idx, it in enumerate(rows) if bad(it)]] *)
Fixpoint invalid_rows {A} (bad : A -> bool) (idx : nat) (rows : list A)
    : list nat :=
  match rows with
  | [] => []
  | it :: rest =>
      (if bad it then [S idx] else []) ++ invalid_rows bad (S idx) rest
  end.

Definition in_line_bad (it : InLine) : bool :=
  PyStr.falsy (il_name it) || Qleb (il_quantity it) 0 || PyStr.falsy (il_unit it).

(** Form [in_multi_form], the run in which [submitted] is true. *)
Definition in_multi_submit (in_multi : list InLine) (supplier note : string)
    : M UiMsg :=
  match in_multi with
  | [] => ret ErrNoItems
  | _ =>
      let errors := invalid_rows in_line_bad 0 in_multi in
      match errors with
      | _ :: _ => ret (ErrLines errors)
      | [] =>
          trx_code <- generate_trx_code "in" ;;
          let bundle := trx_code in
          for_each in_multi (fun it =>
            item_id <- upsert_item (il_name it) (il_category it) (il_unit it)
                         (il_quantity it) (il_min_stock it)
                         (il_rack_location it)
                         (Some (ExpText (il_expiry_date it))) ;;
            add_transaction_record "in" (Some item_id) (il_name it)
              (il_quantity it) (il_unit it) None (Some supplier) note
              bundle trx_code None) ;;;
          ret (Sukses trx_code)
      end
  end.

(** Form [out_single], the run in which [submitted] is true. *)
Definition out_single_submit (name unit : string) (quantity : Q)
    (requester note : string) : M UiMsg :=
  trx_code <- generate_trx_code "out" ;;
  if PyStr.falsy name || Qleb quantity 0 || PyStr.falsy unit
     || PyStr.falsy requester then
    ret ErrOutFields
  else
    d <- get_db ;;
    match select_item name unit d with
    | None => ret ErrItemNotFound
    | Some row =>
        if Qltb (item_quantity row) quantity then
          ret (ErrStock (item_quantity row) quantity)
        else
          r <- adjust_item_for_out name unit quantity ;;
          let item_id := fst r in
          add_transaction_record "out" item_id name quantity unit
            (Some requester) None note trx_code trx_code None ;;;
          ret (Sukses trx_code)
    end.

(** A row of [st.session_state.out_multi]. *)
Record OutLine := mkOutLine {
  ol_name : string;
  ol_unit : string;
  ol_quantity : Q;
  ol_note : string }.

Definition out_line_bad (it : OutLine) : bool :=
  PyStr.falsy (ol_name it) || Qleb (ol_quantity it) 0 || PyStr.falsy (ol_unit it).

(** The stock check of the batch issue: one pass over the rows, every
    [SELECT] on the same connection, nothing written in between. *)
Fixpoint check_stock (d : DB) (rows : list OutLine)
    : list (string * Reason) :=
  match rows with
  | [] => []
  | it :: rest =>
      match select_item (ol_name it) (ol_unit it) d with
      | None => [(ol_name it, ReasonNotFound)]
      | Some row =>
          if Qltb (item_quantity row) (ol_quantity it)
          then [(ol_name it, ReasonStock (item_quantity row) (ol_quantity it))]
          else []
      end ++ check_stock d rest
  end.

(** Form [out_multi_form], the run in which [submitted] is true. *)
Definition out_multi_submit (out_multi : list OutLine) (requester : string)
    : M UiMsg :=
  match out_multi with
  | [] => ret ErrNoItems
  | _ =>
      if PyStr.falsy requester then ret ErrRequester
      else
        let bad := invalid_rows out_line_bad 0 out_multi in
        match bad with
        | _ :: _ => ret (ErrLines bad)
        | [] =>
            d <- get_db ;;
            let insufficient := check_stock d out_multi in
            match insufficient with
            | _ :: _ => ret (ErrRejected insufficient)
            | [] =>
                trx_code <- generate_trx_code "out" ;;
                let bundle := trx_code in
                for_each out_multi (fun it =>
                  r <- adjust_item_for_out (ol_name it) (ol_unit it)
                         (ol_quantity it) ;;
                  let item_id := fst r in
                  add_transaction_record "out" item_id (ol_name it)
                    (ol_quantity it) (ol_unit it) (Some requester) None
                    (ol_note it) bundle trx_code None) ;;;
                ret (Sukses trx_code)
            end
        end
  end.

(** The ledger operations a user can submit. *)
Inductive LedgerOp :=
| InSingle (name unit : string) (quantity : Q) (category : string)
           (min_stock : Q) (supplier rack_location expiry_date : string)
| InMulti (rows : list InLine) (supplier note : string)
| OutSingle (name unit : string) (quantity : Q) (requester note : string)
| OutMulti (rows : list OutLine) (requester : string).

Definition run_op (op : LedgerOp) : M UiMsg :=
  match op with
  | InSingle n u q c m s r e => in_single_submit n u q c m s r e
  | InMulti rows s n => in_multi_submit rows s n
  | OutSingle n u q r note => out_single_submit n u q r note
  | OutMulti rows r => out_multi_submit rows r
  end.

(** The world after a sequence of submissions. *)
Fixpoint run_ops (ops : list LedgerOp) (w : World) : World :=
  match ops with
  | [] => w
  | op :: rest => run_ops rest (exec (run_op op) w)
  end.


(* ------------------------------------------------------------------ *)
(** * Bulk import                                                      *)
(* ------------------------------------------------------------------ *)

(** Python exceptions that the modelled code can raise. *)
Inductive Exn :=
| ValueError (msg : string)
| AttributeError (attr : string).

Inductive result (A : Type) :=
| Ok (a : A)
| Raise (e : Exn).
Arguments Ok {A} a.
Arguments Raise {A} e.

(** A row of the sheet read by [pd.read_excel]. Text columns hold a text
    or NaN, numeric columns a number or NaN, the expiry column a
    timestamp or NaT; [None] is the missing value. The cell of a column
    that the sheet does not have is never read. *)
Record XRow := mkXRow {
  x_name : option string;
  x_quantity : option Q;
  x_unit : option string;
  x_category : option string;
  x_min_stock : option Q;
  x_rack_location : option string;
  x_expiry_date : option Timestamp }.

Record Sheet := mkSheet {
  sh_columns : list string;
  sh_rows : list XRow }.

(** [key in df_columns], with [df_columns = {c.lower(): c for c in df.columns}] *)
Definition has_column (key : string) (df : Sheet) : bool :=
  existsb (fun c => String.eqb (PyStr.lower c) key) (sh_columns df).

(** [str(cell)] for a text cell; [str(nan)] is ['nan']. *)
Definition str_cell (c : option string) : string :=
  match c with Some s => s | None => "nan" end.

(** [float(cell) if not pd.isna(cell) else 0] *)
Definition float_or_0 (c : option Q) : Q :=
  match c with Some q => q | None => 0%Q end.

(** The body of the loop over [df.iterrows()]. *)
Definition import_row (df : Sheet) (row : XRow) : M Z :=
  let name := PyStr.strip (str_cell (x_name row)) in
  let quantity := float_or_0 (x_quantity row) in
  let unit := PyStr.strip (str_cell (x_unit row)) in
  let category :=
    if has_column "category" df then PyStr.strip (str_cell (x_category row))
    else "" in
  let min_stock :=
    if has_column "min_stock" df then float_or_0 (x_min_stock row) else 0%Q in
  let rack_location :=
    if has_column "rack_location" df
    then PyStr.strip (str_cell (x_rack_location row)) else "" in
  let expiry_date :=
    if has_column "expiry_date" df
    then option_map (fun t => ExpDate (date_of t)) (x_expiry_date row)
    else None in
  upsert_item name category unit quantity min_stock rack_location expiry_date.

Fixpoint import_rows (df : Sheet) (rows : list XRow) (inserted : Z) : M Z :=
  match rows with
  | [] => ret inserted
  | row :: rest =>
      import_row df row ;;;
      import_rows df rest (inserted + 1)
  end.

Definition load_inventory_from_excel (df : Sheet) : M (result Z) :=
  if forallb (fun r => has_column r df) ["name"; "quantity"; "unit"] then
    inserted <- import_rows df (sh_rows df) 0 ;;
    ret (Ok inserted)
  else
    ret (Raise (ValueError "Excel harus memiliki kolom: name, quantity, unit")).

(* ------------------------------------------------------------------ *)
(** * Reporting                                                        *)
(* ------------------------------------------------------------------ *)

(** A row of the frame built by [load_transactions_df]: the stored row
    with the derived [date] and [month] columns (the [week] column is
    not used by the functions below and is left out). *)
Record TrxRow := mkTrxRow {
  tr_row : Trx;
  tr_date : Date;
  tr_month : Timestamp }.

Definition load_transactions_df (d : DB) : list TrxRow :=
  map (fun t => mkTrxRow t (date_of (trx_created_at t))
                         (period_start (to_period_M (trx_created_at t))))
      (transactions d).

Section GroupBy.
Context {K : Type} (eqb : K -> K -> bool).

Fixpoint assoc {V} (k : K) (l : list (K * V)) : option V :=
  match l with
  | [] => None
  | (k', v) :: rest => if eqb k' k then Some v else assoc k rest
  end.

(** One more row entering its group. *)
Fixpoint add_to_group (k : K) (q : Q) (groups : list (K * Q))
    : list (K * Q) :=
  match groups with
  | [] => [(k, q)]
  | (k', s) :: rest =>
      if eqb k' k then (k', (s + q)%Q) :: rest
      else (k', s) :: add_to_group k q rest
  end.

(** [rows.groupby(keys)['quantity'].sum().reset_index()]; the groups
    are listed in the order in which they are first met. *)
Definition groupby_sum (rows : list (K * Q)) : list (K * Q) :=
  fold_left (fun groups r => add_to_group (fst r) (snd r) groups) rows [].


Fixpoint distinct (l : list K) : list K :=
  match l with
  | [] => []
  | k :: rest => k :: filter (fun k' => negb (eqb k k')) (distinct rest)
  end.
End GroupBy.

Definition key_eqb (a b : string * string) : bool :=
  String.eqb (fst a) (fst b) && String.eqb (snd a) (snd b).




(** The methods of the [.dt] accessor of a period column that give a
    timestamp per period; any other attribute name is an
    [AttributeError]. *)
Definition period_dt_attr (attr : string) : result (Period -> Timestamp) :=
  if String.eqb attr "to_timestamp" then Ok period_start
  else if String.eqb attr "start_time" then Ok period_start
  else Raise (AttributeError attr).

(** A row of the frame returned by [compare_months]: the name, one value
    per month column, and the two computed columns when they exist. *)
Record CmpRow := mkCmpRow {
  cmp_name : string;
  cmp_values : list (Timestamp * Q);
  cmp_difference : option Q;
  cmp_pct_change : option (option Q) }.

Definition month_name_eqb (a b : Timestamp * string) : bool :=
  ts_eqb (fst a) (fst b) && String.eqb (snd a) (snd b).

(** [compare_months] from its third line on, given the [month_start]
    column; rows and columns are listed in the order first met. *)
Definition compare_months_from (df_month : list (TrxRow * Timestamp))
    (month_a month_b : Timestamp) (items_list : option (list string))
    : list CmpRow :=
  let sel :=
    filter (fun rm => (ts_eqb (snd rm) month_a || ts_eqb (snd rm) month_b)
                      && String.eqb (trx_type (tr_row (fst rm))) "out")
           df_month in
  let sel :=
    match items_list with
    | Some ((_ :: _) as l) =>
        filter (fun rm => existsb (String.eqb (trx_name (tr_row (fst rm)))) l)
               sel
    | _ => sel
    end in
  let pivot :=
    groupby_sum month_name_eqb
      (map (fun rm => ((snd rm, trx_name (tr_row (fst rm))),
                       trx_quantity (tr_row (fst rm)))) sel) in
  let names := distinct String.eqb (map (fun kv => snd (fst kv)) pivot) in
  let columns := distinct ts_eqb (map (fun kv => fst (fst kv)) pivot) in
  let cell n m :=
    match assoc month_name_eqb (m, n) pivot with
    | Some q => q | None => 0%Q end in
  let both := existsb (ts_eqb month_a) columns
              && existsb (ts_eqb month_b) columns in
  map (fun n =>
         let difference := (cell n month_b - cell n month_a)%Q in
         mkCmpRow n (map (fun m => (m, cell n m)) columns)
           (if both then Some difference else None)
           (if both
            then Some (if negb (Qeq_bool (cell n month_a) 0)
                       then Some (difference / cell n month_a * 100)%Q
                       else None)
            else None))
      names.

Definition compare_months (df : list TrxRow) (month_a month_b : Timestamp)
    (items_list : option (list string)) : result (list CmpRow) :=
  match period_dt_attr "to_created_at" with
  | Raise e => Raise e
  | Ok to_created_at =>
      let df_month :=
        map (fun r => (r, to_created_at
                            (to_period_M (trx_created_at (tr_row r))))) df in
      Ok (compare_months_from df_month month_a month_b items_list)
  end.

(* ------------------------------------------------------------------ *)
(** * Notions used in the statements                                   *)
(* ------------------------------------------------------------------ *)


(** The stock on hand of a (name, unit): the quantity of the row that a
    lookup finds, 0 when there is none. *)
Definition stock_of (name unit : string) (d : DB) : Q :=
  match select_item name unit d with
  | Some it => item_quantity it
  | None => 0%Q
  end.


(** The world with its database replaced. *)
Definition set_db (d : DB) (w : World) : World := snd (put_db d w).

(** The world after one more read of the clock. *)
Definition tick (w : World) : World := snd (datetime_now w).

(** The row written by the [UPDATE] of [upsert_item]. *)
Definition upsert_update (category : string) (new_quantity min_stock : Q)
    (rack_location : string) (expiry_date : option Expiry) (now : Timestamp)
    (it : Item) : Item :=
  mkItem (item_id it) (item_name it) category (item_unit it) new_quantity
         min_stock rack_location expiry_date now now.

(** The row written by the [UPDATE] of [adjust_item_for_out]. *)
Definition set_quantity (new_quantity : Q) (it : Item) : Item :=
  mkItem (item_id it) (item_name it) (item_category it) (item_unit it)
         new_quantity (item_min_stock it) (item_rack_location it)
         (item_expiry_date it) (item_created_at it) (item_updated_at it).

(** The text of a transaction code made at time [t] with the random
    number [r]. *)
Definition trx_code_text (trx_type : string) (t : Timestamp) (r : Z) : string :=
  "TRX-" ++ PyStr.upper trx_type ++ "-" ++ strftime_code t
    ++ "-" ++ PyStr.of_int r.

(** The random number that the next [random.randint(100, 999)] gives. *)
Definition next_randint (w : World) : Z :=
  100 + (w_random w (w_random_reads w)) mod (999 - 100 + 1).

(** The time that the next [datetime.now()] gives. *)
Definition next_now (w : World) : Timestamp := w_clock w (w_clock_reads w).

(** A computation that keeps a property of the world. *)
Definition preserves {A} (P : World -> Prop) (m : M A) : Prop :=
  forall w, P w -> P (snd (m w)).

(** A computation that leaves the database as it is. *)
Definition db_untouched {A} (m : M A) : Prop :=
  forall w, w_db (snd (m w)) = w_db w.

(** A line of a batch issue that the stock check refuses. *)
Definition line_failsb (d : DB) (it : OutLine) : bool :=
  match select_item (ol_name it) (ol_unit it) d with
  | None => true
  | Some row => Qltb (item_quantity row) (ol_quantity it)
  end.

Definition line_fails (d : DB) (it : OutLine) : Prop :=
  select_item (ol_name it) (ol_unit it) d = None
  \/ (exists row, select_item (ol_name it) (ol_unit it) d = Some row
                  /\ (item_quantity row < ol_quantity it)%Q).

(** The reason that belongs to a refused line. *)
Definition reason_for (d : DB) (it : OutLine) (r : string * Reason) : Prop :=
  fst r = ol_name it
  /\ ((select_item (ol_name it) (ol_unit it) d = None
       /\ snd r = ReasonNotFound)
      \/ (exists row,
            select_item (ol_name it) (ol_unit it) d = Some row
            /\ (item_quantity row < ol_quantity it)%Q
            /\ snd r = ReasonStock (item_quantity row) (ol_quantity it))).

(** A line that the store, as it is in [d], can serve on its own. *)
Definition line_covered (d : DB) (it : OutLine) : Prop :=
  exists row, select_item (ol_name it) (ol_unit it) d = Some row
              /\ (ol_quantity it <= item_quantity row)%Q.






(** The required columns of an imported sheet are there. *)
Definition required_columns (df : Sheet) : bool :=
  has_column "name" df && has_column "quantity" df && has_column "unit" df.

(* ------------------------------------------------------------------ *)
(** * Concrete inputs                                                  *)
(* ------------------------------------------------------------------ *)

(** A clock that advances one second per read, from 2024-01-15 10:00:00,
    and a random source that counts up. *)
Definition clock0 (n : nat) : Timestamp := mkTs 2024 1 15 10 0 (Z.of_nat n) 0.
Definition rnd0 (n : nat) : Z := Z.of_nat n.


(** The store with 5 of A and 5 of B, built by two receipts. *)
Definition w_AB : World :=
  run_ops [InSingle "A" "pcs" 5 "" 0 "" "" "";
           InSingle "B" "pcs" 5 "" 0 "" "" ""]
          (init_world clock0 rnd0).

(** The row of A in that store. *)
Definition row_A : Item :=
  mkItem 1 "A" "" "pcs" 5 0 "" None (clock0 1) (clock0 1).



(** A sheet with one row that takes 8 of A away, and a sheet with one
    row whose quantity cell is empty. *)
Definition sheet_minus8 : Sheet :=
  mkSheet ["Name"; "Quantity"; "Unit"]
          [mkXRow (Some "A") (Some (-8)%Q) (Some "pcs") None None None None].

Definition sheet_nan : Sheet :=
  mkSheet ["Name"; "Quantity"; "Unit"]
          [mkXRow (Some "Gula") None (Some "kg") None None None None].

(** A movement log with 10 of Beras issued in January 2024 and 15 in
    February 2024, as [load_transactions_df] gives it. *)
Definition month_jan : Timestamp := mkTs 2024 1 1 0 0 0 0.
Definition month_feb : Timestamp := mkTs 2024 2 1 0 0 0 0.

Definition df_jan_feb : list TrxRow :=
  load_transactions_df
    (mkDB [] 0
       [mkTrx 1 "out" (Some 1) "Beras" 10 "kg" (Some "Budi") None ""
              (mkTs 2024 1 10 9 0 0 0) "TRX-OUT-20240110-090000-123"
              "TRX-OUT-20240110-090000-123" None;
        mkTrx 2 "out" (Some 1) "Beras" 15 "kg" (Some "Budi") None ""
              (mkTs 2024 2 12 9 0 0 0) "TRX-OUT-20240212-090000-456"
              "TRX-OUT-20240212-090000-456" None]
       2).


Definition batch_A3_B10 : list OutLine :=
  [mkOutLine "A" "pcs" 3 ""; mkOutLine "B" "pcs" 10 ""].

Definition batch_A3_A4 : list OutLine :=
  [mkOutLine "A" "pcs" 3 ""; mkOutLine "A" "pcs" 4 ""].

(* ------------------------------------------------------------------ *)
(** * The store and the log as a whole                                 *)
(* ------------------------------------------------------------------ *)

(** Everything that writes to the tables: a submitted form or an
    imported sheet. *)
Inductive StoreOp :=
| Ledger (op : LedgerOp)
| Import (df : Sheet).

Definition run_store_op (op : StoreOp) (w : World) : World :=
  match op with
  | Ledger o => exec (run_op o) w
  | Import df => exec (load_inventory_from_excel df) w
  end.

(** The worlds that forms and imports can reach from an empty database. *)
Inductive reachable_store : World -> Prop :=
| rs_init clock rnd : reachable_store (init_world clock rnd)
| rs_step op w : reachable_store w -> reachable_store (run_store_op op w).

(** The key under which [items] is searched. *)
Definition item_key (it : Item) : string * string :=
  (item_name it, item_unit it).

(** Ids are distinct and none is above the counter of the key. *)
Definition ids_wf (d : DB) : Prop :=
  NoDup (map item_id (items d))
  /\ Forall (fun it => item_id it <= items_seq d) (items d).

(** No two rows of [items] have the same (name, unit). *)
Definition keys_unique (d : DB) : Prop :=
  NoDup (map item_key (items d)).

(** Every stored name is its own [strip()]. *)
Definition names_stripped (d : DB) : Prop :=
  Forall (fun it => PyStr.strip (item_name it) = item_name it) (items d).

Definition store_wf (d : DB) : Prop :=
  ids_wf d /\ keys_unique d /\ names_stripped d.

(** What every movement written by a form looks like. *)
Definition trx_wf (t : Trx) : Prop :=
  (0 < trx_quantity t)%Q
  /\ trx_bundle_code t = trx_trx_code t
  /\ (trx_type t = "in" \/ trx_type t = "out")
  /\ trx_name t <> "" /\ trx_unit t <> "".

Definition log_wf (d : DB) : Prop :=
  Forall trx_wf (transactions d)
  /\ NoDup (map trx_id (transactions d))
  /\ Forall (fun t => trx_id t <= transactions_seq d) (transactions d).

(** The log of [w] starts with the rows [base]. *)
Definition log_extends (base : list Trx) (w : World) : Prop :=
  exists more, transactions (w_db w) = (base ++ more)%list.

(** The store of A and B after the import of the sheet with the empty
    quantity cell. *)
Definition w_AB_gula : World := run_store_op (Import sheet_nan) w_AB.

(* ------------------------------------------------------------------ *)
(** * Queries behind the drop-downs                                    *)
(* ------------------------------------------------------------------ *)

(** [get_item_unit(name)]: [SELECT unit FROM items WHERE name=? LIMIT 1] *)
Definition get_item_unit (name : string) (d : DB) : string :=
  if PyStr.falsy name then ""
  else match find (fun it => String.eqb (item_name it) name) (items d) with
       | Some row => item_unit row
       | None => ""
       end.

(** [ORDER BY name] on a column of texts: ascending in the order of the
    character codes. *)
Fixpoint insert_sorted (s : string) (l : list string) : list string :=
  match l with
  | [] => [s]
  | x :: rest => if String.leb s x then s :: l else x :: insert_sorted s rest
  end.

Fixpoint order_by_name (l : list string) : list string :=
  match l with
  | [] => []
  | x :: rest => insert_sorted x (order_by_name rest)
  end.

(** [get_items_list()]: the names of [SELECT * FROM items ORDER BY name]. *)
Definition get_items_list (d : DB) : list string :=
  order_by_name (map item_name (items d)).

(* ------------------------------------------------------------------ *)
(** * Sums over the lines of a batch                                   *)
(* ------------------------------------------------------------------ *)

(** The quantity that the lines of a batch receipt bring to the item
    [(name, unit)]: receipts are booked under the stripped name. *)
Definition received_total (name unit : string) (rows : list InLine) : Q :=
  fold_right Qplus 0%Q
    (map il_quantity
       (filter (fun it => key_eqb (PyStr.strip (il_name it), il_unit it)
                                  (name, unit)) rows)).

(** The quantity that the lines of a batch issue take from the item
    [(name, unit)]. *)
Definition issued_total (name unit : string) (rows : list OutLine) : Q :=
  fold_right Qplus 0%Q
    (map ol_quantity
       (filter (fun it => key_eqb (ol_name it, ol_unit it) (name, unit))
               rows)).


(** The movements that a batch form writes for its lines. *)
Definition in_line_movement (supplier note code : string) (it : InLine)
    (t : Trx) : Prop :=
  trx_type t = "in" /\ trx_name t = il_name it /\ trx_unit t = il_unit it
  /\ trx_quantity t = il_quantity it
  /\ trx_supplier t = Some supplier /\ trx_requester t = None
  /\ trx_note t = note
  /\ trx_bundle_code t = code /\ trx_trx_code t = code
  /\ trx_item_id t <> None.

Definition out_line_movement (requester code : string) (it : OutLine)
    (t : Trx) : Prop :=
  trx_type t = "out" /\ trx_name t = ol_name it /\ trx_unit t = ol_unit it
  /\ trx_quantity t = ol_quantity it
  /\ trx_requester t = Some requester /\ trx_supplier t = None
  /\ trx_note t = ol_note it
  /\ trx_bundle_code t = code /\ trx_trx_code t = code.

(** A sheet whose rows name A twice, once with white space around the
    name, and Gula once with an empty quantity cell. *)
Definition sheet_three : Sheet :=
  mkSheet ["name"; "QUANTITY"; "Unit"]
          [mkXRow (Some "A") (Some 2%Q) (Some "pcs") None None None None;
           mkXRow (Some "Gula") None (Some "kg") None None None None;
           mkXRow (Some " A ") (Some (-1)%Q) (Some " pcs") None None None None].

(** A batch issue of three lines on three different items. *)
Definition batch_A3_B5 : list OutLine :=
  [mkOutLine "A" "pcs" 3 ""; mkOutLine "B" "pcs" 5 "habis"].

(* ------------------------------------------------------------------ *)
(** * Users and login                                                  *)
(* ------------------------------------------------------------------ *)

(** Table [users]: (username, password_hash), [username] the primary
    key, rows in insertion order. *)
Definition Users : Type := list (string * string).


Section Login.
(** [hashlib.sha256(...).hexdigest()] of the UTF-8 bytes of a text. *)
Variable sha256_hexdigest : string -> string.

Definition hash_pw (pw : string) : string := sha256_hexdigest pw.

(** [SELECT password_hash FROM users WHERE username=?] and [fetchone()] *)
Definition select_user (username : string) (users : Users) : option string :=
  option_map snd (find (fun row => String.eqb (fst row) username) users).

Definition ensure_default_admin (users : Users) : Users :=
  let cnt := List.length users in
  if Nat.eqb cnt 0 then (users ++ [("admin", hash_pw "admin123")])%list
  else users.

Definition verify_login (users : Users) (username password : string) : bool :=
  let pw_hash := hash_pw password in
  match select_user username users with
  | None => false
  | Some stored => String.eqb stored pw_hash
  end.

End Login.


(* ------------------------------------------------------------------ *)
(** * Summaries per week and per month                                 *)
(* ------------------------------------------------------------------ *)

(** The calendar arithmetic behind [strftime('%W')]: day of the year
    counted from 0, ordinal of a date (1 for 0001-01-01), day of the
    week with Monday as 0, and the week of the year with Monday as the
    first day of the week (the days before the first Monday are in week
    0). *)
Definition is_leap (y : Z) : bool :=
  ((y mod 4 =? 0) && negb (y mod 100 =? 0)) || (y mod 400 =? 0).

Definition days_before_month (y m : Z) : Z :=
  nth (Z.to_nat (m - 1)) [0; 31; 59; 90; 120; 151; 181; 212; 243; 273; 304; 334] 0
  + (if (2 <? m) && is_leap y then 1 else 0).

Definition yday0 (d : Date) : Z :=
  days_before_month (d_year d) (d_month d) + d_day d - 1.

Definition days_before_year (y : Z) : Z :=
  let y1 := y - 1 in 365 * y1 + y1 / 4 - y1 / 100 + y1 / 400.

Definition toordinal (d : Date) : Z := days_before_year (d_year d) + yday0 d + 1.

Definition weekday (d : Date) : Z := (toordinal d + 6) mod 7.

Definition week_of_year (d : Date) : Z := (yday0 d + 7 - weekday d) / 7.

(** [d.strftime('%Y-%W')] and [d.strftime('%Y-%m')] *)
Definition week_label (d : Date) : string :=
  PyStr.zfill 4 (PyStr.of_int (d_year d)) ++ "-"
  ++ PyStr.zfill 2 (PyStr.of_int (week_of_year d)).

Definition month_label (d : Date) : string :=
  PyStr.zfill 4 (PyStr.of_int (d_year d)) ++ "-"
  ++ PyStr.zfill 2 (PyStr.of_int (d_month d)).

(** The key of a group: (week or month, name, unit, trx_type). *)
Definition SummaryKey : Type := (string * (string * (string * string)))%type.

Definition summary_key_eqb (a b : SummaryKey) : bool :=
  String.eqb (fst a) (fst b)
  && String.eqb (fst (snd a)) (fst (snd b))
  && String.eqb (fst (snd (snd a))) (fst (snd (snd b)))
  && String.eqb (snd (snd (snd a))) (snd (snd (snd b))).

Definition summary_row (label : Date -> string) (r : TrxRow)
    : SummaryKey * Q :=
  ((label (tr_date r),
    (trx_name (tr_row r), (trx_unit (tr_row r), trx_type (tr_row r)))),
   trx_quantity (tr_row r)).

(** [summary_by_period(df, period)]: the returned frame, one row per
    group with the sum of its quantities. The column that the function
    also writes into the frame of its caller is not part of the result. *)
Definition summary_by_period (df : list TrxRow) (period : string)
    : list (SummaryKey * Q) :=
  match df with
  | [] => []
  | _ =>
      if String.eqb period "W" then
        groupby_sum summary_key_eqb (map (summary_row week_label) df)
      else if String.eqb period "M" then
        groupby_sum summary_key_eqb (map (summary_row month_label) df)
      else []
  end.



(* ------------------------------------------------------------------ *)
(** * References from the log to the store                             *)
(* ------------------------------------------------------------------ *)

(** The item reference of a movement is empty or the id of a row of
    [items]. *)
Definition trx_ref_ok (d : DB) (t : Trx) : Prop :=
  match trx_item_id t with
  | Some id => In id (map item_id (items d))
  | None => True
  end.

Definition refs_ok (d : DB) : Prop := Forall (trx_ref_ok d) (transactions d).

(** An optional id that, when it is there, is an id of the store. *)
Definition id_known (d : DB) (id : option Z) : Prop :=
  match id with
  | Some i => In i (map item_id (items d))
  | None => True
  end.

(** A computation that, started where [P] holds, ends with a result and
    a world that satisfy [Q]. *)
Definition hoare {A} (P : World -> Prop) (m : M A)
    (Q : A -> World -> Prop) : Prop :=
  forall w, P w -> Q (fst (m w)) (snd (m w)).

(* ------------------------------------------------------------------ *)
(** * The stock against the log                                        *)
(* ------------------------------------------------------------------ *)








(* ------------------------------------------------------------------ *)
(** * Basic facts                                                      *)
(* ------------------------------------------------------------------ *)

Lemma Qltb_true_iff a b : Qltb a b = true <-> (a < b)%Q.
Proof.
  unfold Qltb. rewrite negb_true_iff.
  split; intro H.
  - apply Qnot_le_lt. intro Hle. apply Qle_bool_iff in Hle. congruence.
  - destruct (Qle_bool b a) eqn:E; [|reflexivity].
    apply Qle_bool_iff in E. exfalso. apply (Qlt_not_le _ _ H E).
Qed.

Lemma Qltb_false_iff a b : Qltb a b = false <-> (b <= a)%Q.
Proof.
  unfold Qltb. rewrite negb_false_iff. apply Qle_bool_iff.
Qed.

Lemma Qleb_false_iff a b : Qleb a b = false <-> (b < a)%Q.
Proof.
  unfold Qleb. split; intro H.
  - apply Qnot_le_lt. intro Hle. apply Qle_bool_iff in Hle. congruence.
  - destruct (Qle_bool a b) eqn:E; [|reflexivity].
    apply Qle_bool_iff in E. exfalso. apply (Qlt_not_le _ _ H E).
Qed.

Lemma falsy_false_iff s : PyStr.falsy s = false <-> s <> "".
Proof. destruct s; simpl; split; congruence. Qed.

Lemma preserves_ret {A} P (a : A) : preserves P (ret a).
Proof. intros w H. exact H. Qed.

Lemma preserves_bind {A B} P (m : M A) (k : A -> M B) :
  preserves P m -> (forall a, preserves P (k a)) -> preserves P (bind m k).
Proof.
  intros Hm Hk w H. unfold bind.
  specialize (Hm w H). destruct (m w) as [a w']. simpl in Hm.
  apply Hk. exact Hm.
Qed.

Lemma preserves_for_each {A} P (body : A -> M Datatypes.unit) xs :
  Forall (fun x => preserves P (body x)) xs -> preserves P (for_each xs body).
Proof.
  induction 1 as [|x xs Hx _ IH]; simpl.
  - apply preserves_ret.
  - apply preserves_bind; [exact Hx | intros _; exact IH].
Qed.

Lemma untouched_preserves {A} (P : DB -> Prop) (m : M A) :
  db_untouched m -> preserves (fun w => P (w_db w)) m.
Proof. intros H w HP. rewrite H. exact HP. Qed.

Lemma datetime_now_untouched : db_untouched datetime_now.
Proof. intros w. reflexivity. Qed.

Lemma generate_trx_code_untouched ty : db_untouched (generate_trx_code ty).
Proof. intros w. reflexivity. Qed.

Lemma get_db_untouched : db_untouched get_db.
Proof. intros w. reflexivity. Qed.

Lemma invalid_rows_nil {A} (bad : A -> bool) rows : forall idx,
  invalid_rows bad idx rows = [] <-> Forall (fun it => bad it = false) rows.
Proof.
  induction rows as [|it rest IH]; intros idx; simpl.
  - split; auto.
  - destruct (bad it) eqn:E; simpl.
    + split; [discriminate|]. intros H. inversion H; congruence.
    + rewrite IH. split; [intro H; constructor; assumption|].
      intros H. inversion H; assumption.
Qed.

(** ** The stock stays non-negative *)


Lemma select_item_In name unit d row :
  select_item name unit d = Some row -> In row (items d).
Proof. intros H. apply find_some in H. tauto. Qed.



Lemma add_transaction_record_items ty id name q unit rq sp note b c e w :
  items (w_db (snd (add_transaction_record ty id name q unit rq sp note b c e w)))
  = items (w_db w).
Proof. reflexivity. Qed.










(** ** The stock check of a batch issue *)

Lemma line_failsb_iff d it : line_failsb d it = true <-> line_fails d it.
Proof.
  unfold line_failsb, line_fails.
  destruct (select_item (ol_name it) (ol_unit it) d) as [row|].
  - rewrite Qltb_true_iff. split.
    + intros H. right. exists row. split; [reflexivity | exact H].
    + intros [H | [row' [H1 H2]]]; [discriminate|]. congruence.
  - split; [intros _; left; reflexivity | reflexivity].
Qed.

Lemma line_failsb_false_iff d it :
  line_failsb d it = false <-> line_covered d it.
Proof.
  unfold line_failsb, line_covered.
  destruct (select_item (ol_name it) (ol_unit it) d) as [row|].
  - rewrite Qltb_false_iff. split.
    + intros H. exists row. split; [reflexivity | exact H].
    + intros [row' [H1 H2]]. congruence.
  - split; [discriminate | intros [row' [H1 _]]; discriminate].
Qed.

Lemma check_stock_reasons d rows :
  Forall2 (reason_for d) (filter (line_failsb d) rows) (check_stock d rows).
Proof.
  induction rows as [|it rest IH]; simpl; [constructor|].
  unfold line_failsb at 1.
  destruct (select_item (ol_name it) (ol_unit it) d) as [row|] eqn:E.
  - destruct (Qltb (item_quantity row) (ol_quantity it)) eqn:Elt; simpl.
    + constructor; [|exact IH]. split; [reflexivity|]. right.
      exists row. rewrite E. apply Qltb_true_iff in Elt. auto.
    + exact IH.
  - simpl. constructor; [|exact IH]. split; [reflexivity|]. left.
    rewrite E. auto.
Qed.

Lemma check_stock_nil d rows :
  check_stock d rows = [] <-> Forall (fun it => line_failsb d it = false) rows.
Proof.
  induction rows as [|it rest IH]; simpl.
  - split; auto.
  - rewrite Forall_cons_iff, <- IH. unfold line_failsb.
    destruct (select_item (ol_name it) (ol_unit it) d) as [row|].
    + destruct (Qltb (item_quantity row) (ol_quantity it)); simpl.
      * split; [discriminate | intros [H _]; discriminate].
      * tauto.
    + simpl. split; [discriminate | intros [H _]; discriminate].
Qed.

(** What [out_multi_submit] does once the field checks are passed. *)
Lemma out_multi_submit_checked rows requester w :
  rows <> [] -> requester <> "" ->
  Forall (fun it => out_line_bad it = false) rows ->
  out_multi_submit rows requester w =
  match check_stock (w_db w) rows with
  | (_ :: _) as insufficient => (ErrRejected insufficient, w)
  | [] =>
      (trx_code <- generate_trx_code "out" ;;
       for_each rows (fun it =>
         r <- adjust_item_for_out (ol_name it) (ol_unit it) (ol_quantity it) ;;
         add_transaction_record "out" (fst r) (ol_name it) (ol_quantity it)
           (ol_unit it) (Some requester) None (ol_note it) trx_code trx_code
           None) ;;;
       ret (Sukses trx_code)) w
  end.
Proof.
  intros Hrows Hreq Hbad. unfold out_multi_submit.
  destruct rows as [|r0 rows0]; [congruence|].
  apply falsy_false_iff in Hreq. rewrite Hreq.
  apply (invalid_rows_nil out_line_bad (r0 :: rows0) 0%nat) in Hbad.
  rewrite Hbad. unfold bind at 1. unfold get_db at 1.
  destruct (check_stock (w_db w) (r0 :: rows0)); reflexivity.
Qed.

Lemma out_multi_submit_rejects rows requester w :
  check_stock (w_db w) rows <> [] ->
  exists msg, out_multi_submit rows requester w = (msg, w)
              /\ forall c, msg <> Sukses c.
Proof.
  intros Hchk. unfold out_multi_submit.
  destruct rows as [|r0 rows0];
    [eexists; split; [reflexivity | intros c Hc; discriminate Hc]|].
  destruct (PyStr.falsy requester);
    [eexists; split; [reflexivity | intros c Hc; discriminate Hc]|].
  destruct (invalid_rows out_line_bad 0 (r0 :: rows0));
    [|eexists; split; [reflexivity | intros c Hc; discriminate Hc]].
  unfold bind at 1. unfold get_db at 1. cbv iota.
  destruct (check_stock (w_db w) (r0 :: rows0)); [congruence|].
  eexists; split; [reflexivity | intros c Hc; discriminate Hc].
Qed.

Lemma eval_sukses_bind {A} (m : M string) (k : string -> M A) w :
  exists c, fst ((trx_code <- m ;; k trx_code ;;; ret (Sukses trx_code)) w)
            = Sukses c.
Proof.
  unfold bind, ret. destruct (m w) as [code w1].
  destruct (k code w1) as [a w2]. exists code. reflexivity.
Qed.

(** C2. Batch issue is all-or-nothing. When at least one line of a batch
    issue names a (name, unit) that the store does not have, or asks
    for more than the stock on hand, the submission leaves the world as
    it was (every stock unchanged, no movement appended) and does not
    succeed; and for a batch that passed the field checks (requester
    given, every line with name, unit and a positive quantity) the
    rejection lists exactly one reason per failing line, in order. *)
Theorem batch_issue_all_or_nothing w rows requester :
  Exists (line_fails (w_db w)) rows ->
  exec (out_multi_submit rows requester) w = w
  /\ (forall c, eval (out_multi_submit rows requester) w <> Sukses c)
  /\ (requester <> "" ->
      Forall (fun it => out_line_bad it = false) rows ->
      exists reasons,
        eval (out_multi_submit rows requester) w = ErrRejected reasons
        /\ Forall2 (reason_for (w_db w))
                   (filter (line_failsb (w_db w)) rows) reasons).
Proof.
  intros Hex.
  assert (Hchk : check_stock (w_db w) rows <> []).
  { intros Hnil. apply check_stock_nil in Hnil.
    apply Exists_exists in Hex. destruct Hex as [it [Hin Hfail]].
    rewrite Forall_forall in Hnil. specialize (Hnil it Hin).
    apply line_failsb_iff in Hfail. congruence. }
  destruct (out_multi_submit_rejects rows requester w Hchk)
    as [msg [Hrun Hmsg]].
  unfold exec, eval. rewrite Hrun. simpl.
  split; [reflexivity|]. split; [exact Hmsg|].
  intros Hreq Hbad.
  assert (Hrows : rows <> []).
  { intros ->. inversion Hex. }
  rewrite (out_multi_submit_checked rows requester w Hrows Hreq Hbad) in Hrun.
  pose proof (check_stock_reasons (w_db w) rows) as Hreasons.
  destruct (check_stock (w_db w) rows) as [|r rs] eqn:E; [congruence|].
  exists (r :: rs). split; [congruence | exact Hreasons].
Qed.

Lemma batch_issue_all_or_nothing_witness :
  Exists (line_fails (w_db w_AB)) batch_A3_B10
  /\ exec (out_multi_submit batch_A3_B10 "Budi") w_AB = w_AB
  /\ (forall c, eval (out_multi_submit batch_A3_B10 "Budi") w_AB <> Sukses c)
  /\ ("Budi" <> "" ->
      Forall (fun it => out_line_bad it = false) batch_A3_B10 ->
      exists reasons,
        eval (out_multi_submit batch_A3_B10 "Budi") w_AB = ErrRejected reasons
        /\ Forall2 (reason_for (w_db w_AB))
                   (filter (line_failsb (w_db w_AB)) batch_A3_B10) reasons).
Proof.
  assert (H : Exists (line_fails (w_db w_AB)) batch_A3_B10).
  { apply Exists_cons_tl. apply Exists_cons_hd.
    apply line_failsb_iff. vm_compute. reflexivity. }
  split; [exact H|].
  exact (batch_issue_all_or_nothing w_AB batch_A3_B10 "Budi" H).
Defined.

(** A batch issue that passed the field checks is accepted when every
    line is covered by the store of before the batch. *)
Lemma out_multi_accepts w rows requester :
  rows <> [] -> requester <> "" ->
  Forall (fun it => out_line_bad it = false) rows ->
  Forall (line_covered (w_db w)) rows ->
  exists c, eval (out_multi_submit rows requester) w = Sukses c.
Proof.
  intros Hrows Hreq Hbad Hcov. unfold eval.
  rewrite (out_multi_submit_checked rows requester w Hrows Hreq Hbad).
  assert (Hnil : check_stock (w_db w) rows = []).
  { apply check_stock_nil. eapply Forall_impl; [|exact Hcov].
    intros it. apply line_failsb_false_iff. }
  rewrite Hnil. apply eval_sukses_bind.
Qed.

(** And only then. *)
Lemma out_multi_accepted_covered w rows requester c :
  rows <> [] -> requester <> "" ->
  Forall (fun it => out_line_bad it = false) rows ->
  eval (out_multi_submit rows requester) w = Sukses c ->
  Forall (line_covered (w_db w)) rows.
Proof.
  intros Hrows Hreq Hbad. unfold eval.
  rewrite (out_multi_submit_checked rows requester w Hrows Hreq Hbad).
  pose proof (check_stock_nil (w_db w) rows) as Hnil.
  destruct (check_stock (w_db w) rows) as [|r rs].
  - intros _. destruct Hnil as [Hnil _]. specialize (Hnil eq_refl).
    eapply Forall_impl; [|exact Hnil].
    intros it. apply line_failsb_false_iff.
  - intros Hc. discriminate Hc.
Qed.

(** C3. The stock check of a batch issue reads the store as it stood
    before the batch. A batch that passed the field checks is accepted
    exactly when every line, taken on its own, is covered by the stock
    that the store held before the submission; lines on the same
    (name, unit) are not charged against each other. *)
Theorem batch_issue_checks_snapshot w rows requester :
  rows <> [] -> requester <> "" ->
  Forall (fun it => out_line_bad it = false) rows ->
  ((exists c, eval (out_multi_submit rows requester) w = Sukses c)
   <-> Forall (line_covered (w_db w)) rows).
Proof.
  intros Hrows Hreq Hbad. split.
  - intros [c Hc].
    exact (out_multi_accepted_covered w rows requester c Hrows Hreq Hbad Hc).
  - intros Hcov.
    exact (out_multi_accepts w rows requester Hrows Hreq Hbad Hcov).
Qed.

Lemma batch_issue_checks_snapshot_witness :
  batch_A3_A4 <> [] /\ "Budi" <> ""
  /\ Forall (fun it => out_line_bad it = false) batch_A3_A4
  /\ ((exists c, eval (out_multi_submit batch_A3_A4 "Budi") w_AB = Sukses c)
      <-> Forall (line_covered (w_db w_AB)) batch_A3_A4).
Proof.
  assert (H1 : batch_A3_A4 <> []) by (intros H; discriminate H).
  assert (H2 : "Budi" <> "") by (intros H; discriminate H).
  assert (H3 : Forall (fun it => out_line_bad it = false) batch_A3_A4)
    by (repeat constructor).
  split; [exact H1|]. split; [exact H2|]. split; [exact H3|].
  exact (batch_issue_checks_snapshot w_AB batch_A3_A4 "Budi" H1 H2 H3).
Defined.


(** ** Lookups after an update or an insert *)

Lemma find_map_stable {A} (p : A -> bool) (g : A -> A) l :
  (forall x, p (g x) = p x) ->
  find p (map g l) = option_map g (find p l).
Proof.
  intros Hp. induction l as [|x l IH]; simpl; [reflexivity|].
  rewrite Hp. destruct (p x); [reflexivity | exact IH].
Qed.

Lemma select_update_items name unit id f d :
  (forall it, item_name (f it) = item_name it) ->
  (forall it, item_unit (f it) = item_unit it) ->
  select_item name unit (update_items id f d)
  = option_map (fun it => if item_id it =? id then f it else it)
               (select_item name unit d).
Proof.
  intros Hn Hu. unfold select_item, update_items. simpl.
  apply find_map_stable. intros it. unfold item_matches.
  destruct (item_id it =? id); [rewrite Hn, Hu|]; reflexivity.
Qed.

Lemma find_app_none {A} (p : A -> bool) l x :
  find p l = None -> find p (l ++ [x]) = if p x then Some x else None.
Proof.
  induction l as [|y l IH]; simpl; [reflexivity|].
  destruct (p y); [discriminate | exact IH].
Qed.

Lemma item_matches_refl it : item_matches (item_name it) (item_unit it) it = true.
Proof. unfold item_matches. rewrite !String.eqb_refl. reflexivity. Qed.

Lemma select_item_matches name unit d row :
  select_item name unit d = Some row ->
  item_name row = name /\ item_unit row = unit.
Proof.
  intros H. apply find_some in H. destruct H as [_ H].
  unfold item_matches in H. apply andb_true_iff in H.
  destruct H as [H1 H2]. apply String.eqb_eq in H1, H2. auto.
Qed.

(** ** What the helpers do, case by case *)

Lemma upsert_item_found name category unit quantity min_stock rack expiry w row :
  select_item (PyStr.strip name) unit (w_db w) = Some row ->
  upsert_item name category unit quantity min_stock rack expiry w
  = (item_id row,
     set_db (update_items (item_id row)
               (upsert_update category (item_quantity row + quantity)%Q
                  min_stock rack expiry (w_clock w (w_clock_reads w)))
               (w_db w))
            (tick w)).
Proof.
  intros H. unfold upsert_item, bind, datetime_now, get_db. simpl.
  rewrite H. reflexivity.
Qed.

Lemma upsert_item_new name category unit quantity min_stock rack expiry w :
  select_item (PyStr.strip name) unit (w_db w) = None ->
  upsert_item name category unit quantity min_stock rack expiry w
  = (items_seq (w_db w) + 1,
     set_db (snd (insert_item
                    (fun id => mkItem id (PyStr.strip name) category unit
                                 quantity min_stock rack expiry
                                 (w_clock w (w_clock_reads w))
                                 (w_clock w (w_clock_reads w)))
                    (w_db w)))
            (tick w)).
Proof.
  intros H. unfold upsert_item, bind, datetime_now, get_db. simpl.
  rewrite H. reflexivity.
Qed.

Lemma adjust_item_for_out_ok name unit quantity w row :
  select_item name unit (w_db w) = Some row ->
  (quantity <= item_quantity row)%Q ->
  adjust_item_for_out name unit quantity w
  = ((Some (item_id row), None),
     set_db (update_items (item_id row)
               (set_quantity (item_quantity row - quantity)%Q) (w_db w)) w).
Proof.
  intros H Hle. unfold adjust_item_for_out, bind, get_db. simpl.
  rewrite H. apply Qltb_false_iff in Hle. rewrite Hle. reflexivity.
Qed.

Lemma adjust_item_for_out_short name unit quantity w row :
  select_item name unit (w_db w) = Some row ->
  (item_quantity row < quantity)%Q ->
  adjust_item_for_out name unit quantity w
  = ((None, Some (StokTidakCukup (item_quantity row))), w).
Proof.
  intros H Hlt. unfold adjust_item_for_out, bind, get_db. simpl.
  rewrite H. apply Qltb_true_iff in Hlt. rewrite Hlt. reflexivity.
Qed.

Lemma adjust_item_for_out_missing name unit quantity w :
  select_item name unit (w_db w) = None ->
  adjust_item_for_out name unit quantity w
  = ((None, Some ItemTidakDitemukan), w).
Proof.
  intros H. unfold adjust_item_for_out, bind, get_db. simpl.
  rewrite H. reflexivity.
Qed.

(** C4. A single-item issue that asks for more than the stock on hand of
    an existing item fails: [adjust_item_for_out] returns no item and
    the insufficient-stock error with the quantity on hand, and leaves
    the world as it was; the form handler leaves both tables as they
    were (no movement appended, stock unchanged) and, when the required
    fields are filled in, shows the insufficient-stock error with the
    quantity on hand and the quantity asked for. *)
Theorem single_issue_insufficient w name unit quantity requester note row :
  select_item name unit (w_db w) = Some row ->
  (item_quantity row < quantity)%Q ->
  adjust_item_for_out name unit quantity w
  = ((None, Some (StokTidakCukup (item_quantity row))), w)
  /\ w_db (exec (out_single_submit name unit quantity requester note) w)
     = w_db w
  /\ (forall c, eval (out_single_submit name unit quantity requester note) w
                <> Sukses c)
  /\ (name <> "" -> unit <> "" -> requester <> "" -> (0 < quantity)%Q ->
      eval (out_single_submit name unit quantity requester note) w
      = ErrStock (item_quantity row) quantity).
Proof.
  intros Hsel Hlt.
  split; [apply adjust_item_for_out_short; assumption|].
  unfold exec, eval, out_single_submit, bind.
  pose proof (generate_trx_code_untouched "out" w) as Hdb.
  destruct (generate_trx_code "out" w) as [code w1]. simpl in Hdb.
  apply Qltb_true_iff in Hlt.
  destruct (PyStr.falsy name || Qleb quantity 0 || PyStr.falsy unit
            || PyStr.falsy requester) eqn:E.
  - unfold ret. simpl. split; [exact Hdb|].
    split; [intros c Hc; discriminate Hc|].
    intros Hn Hu Hr Hq.
    apply falsy_false_iff in Hn, Hu, Hr. apply Qleb_false_iff in Hq.
    rewrite Hn, Hu, Hr, Hq in E. discriminate E.
  - unfold get_db. rewrite Hdb, Hsel, Hlt. unfold ret. simpl.
    split; [exact Hdb|]. split; [intros c Hc; discriminate Hc|].
    reflexivity.
Qed.

Lemma single_issue_insufficient_witness :
  exists row,
    select_item "A" "pcs" (w_db w_AB) = Some row
    /\ (item_quantity row < 8)%Q
    /\ adjust_item_for_out "A" "pcs" 8 w_AB
       = ((None, Some (StokTidakCukup (item_quantity row))), w_AB)
    /\ w_db (exec (out_single_submit "A" "pcs" 8 "Budi" "") w_AB) = w_db w_AB
    /\ (forall c, eval (out_single_submit "A" "pcs" 8 "Budi" "") w_AB
                  <> Sukses c)
    /\ ("A" <> "" -> "pcs" <> "" -> "Budi" <> "" -> (0 < 8)%Q ->
        eval (out_single_submit "A" "pcs" 8 "Budi" "") w_AB
        = ErrStock (item_quantity row) 8).
Proof.
  exists row_A.
  assert (H1 : select_item "A" "pcs" (w_db w_AB)
               = Some row_A)
    by (vm_compute; reflexivity).
  assert (H2 : (item_quantity row_A < 8)%Q)
    by (vm_compute; reflexivity).
  split; [exact H1|]. split; [exact H2|].
  exact (single_issue_insufficient w_AB "A" "pcs" 8 "Budi" "" _ H1 H2).
Defined.



(** C8. When [upsert_item] finds a row for the stripped name and the
    unit, it returns the id of that row; the row then holds the old
    quantity plus the received one and the given category, minimum
    stock, rack location and expiry date; [updated_at] and also
    [created_at] are set to the current time; the id, the name and the
    unit of the row are as before. Every row keeps its id, name and
    unit, rows with another id are not touched, and no movement is
    written. *)
Theorem upsert_existing_overwrites
    w name category unit quantity min_stock rack expiry row :
  select_item (PyStr.strip name) unit (w_db w) = Some row ->
  let now := w_clock w (w_clock_reads w) in
  let w' := exec (upsert_item name category unit quantity min_stock rack
                    expiry) w in
  eval (upsert_item name category unit quantity min_stock rack expiry) w
  = item_id row
  /\ (exists row',
        select_item (PyStr.strip name) unit (w_db w') = Some row'
        /\ item_quantity row' = (item_quantity row + quantity)%Q
        /\ item_category row' = category
        /\ item_min_stock row' = min_stock
        /\ item_rack_location row' = rack
        /\ item_expiry_date row' = expiry
        /\ item_updated_at row' = now
        /\ item_created_at row' = now
        /\ item_id row' = item_id row
        /\ item_name row' = item_name row
        /\ item_unit row' = item_unit row)
  /\ Forall2 (fun old new =>
                item_id new = item_id old
                /\ item_name new = item_name old
                /\ item_unit new = item_unit old
                /\ (item_id old <> item_id row -> new = old))
             (items (w_db w)) (items (w_db w'))
  /\ transactions (w_db w') = transactions (w_db w).
Proof.
  intros Hsel now w'. subst w'. unfold exec, eval.
  rewrite (upsert_item_found _ _ _ _ _ _ _ _ _ Hsel). simpl.
  split; [reflexivity|]. split; [|split; [|reflexivity]].
  - rewrite select_update_items by reflexivity.
    rewrite Hsel. simpl. rewrite Z.eqb_refl.
    eexists. split; [reflexivity|]. simpl. repeat split; reflexivity.
  - induction (items (w_db w)) as [|it l IH]; simpl; constructor; [|exact IH].
    destruct (item_id it =? item_id row) eqn:E; simpl.
    + repeat split; try reflexivity.
      intros Hne. apply Z.eqb_eq in E. contradiction.
    + repeat split; reflexivity.
Qed.

Lemma upsert_existing_overwrites_witness :
  exists row,
    select_item (PyStr.strip " A ") "pcs" (w_db w_AB) = Some row
    /\ eval (upsert_item " A " "alat" "pcs" 2 1 "R1" None) w_AB = item_id row
    /\ (exists row',
          select_item (PyStr.strip " A ") "pcs"
            (w_db (exec (upsert_item " A " "alat" "pcs" 2 1 "R1" None) w_AB))
          = Some row'
          /\ item_quantity row' = (item_quantity row + 2)%Q
          /\ item_created_at row' = w_clock w_AB (w_clock_reads w_AB)).
Proof.
  exists row_A.
  assert (H1 : select_item (PyStr.strip " A ") "pcs" (w_db w_AB)
               = Some row_A)
    by (vm_compute; reflexivity).
  split; [exact H1|].
  destruct (upsert_existing_overwrites w_AB " A " "alat" "pcs" 2 1 "R1" None
              _ H1) as [Hid [[row' Hrow'] _]].
  split; [exact Hid|].
  exists row'. tauto.
Defined.

Lemma add_transaction_record_run ty id name q unit rq sp note b c e w :
  add_transaction_record ty id name q unit rq sp note b c e w
  = (tt, set_db (insert_trx
                   (fun k => mkTrx k ty id name q unit rq sp note
                               (w_clock w (w_clock_reads w)) b c e)
                   (w_db w))
                (tick w)).
Proof. reflexivity. Qed.



(** ** Transaction codes *)

Lemma string_length_append a b :
  String.length (a ++ b) = (String.length a + String.length b)%nat.
Proof. induction a as [|c a IH]; simpl; [reflexivity | rewrite IH; reflexivity]. Qed.

Lemma append_inv_head s a b : s ++ a = s ++ b -> a = b.
Proof.
  induction s as [|c s IH]; simpl; intros H; [exact H|].
  injection H as H. apply IH. exact H.
Qed.

Lemma append_inj_tail a : forall b x y,
  a ++ x = b ++ y -> String.length x = String.length y -> a = b /\ x = y.
Proof.
  induction a as [|c a IH]; intros [|c' b] x y H Hlen; simpl in H.
  - auto.
  - exfalso. subst x. simpl in Hlen. rewrite string_length_append in Hlen. lia.
  - exfalso. subst y. simpl in Hlen. rewrite string_length_append in Hlen. lia.
  - injection H as Hc H. destruct (IH b x y H Hlen) as [-> ->].
    subst c'. auto.
Qed.

Lemma to_int_proper z : Z.to_int z <> Decimal.Pos Decimal.Nil
                        /\ Z.to_int z <> Decimal.Neg Decimal.Nil.
Proof.
  destruct z as [|p|p]; simpl; split; intros H; try discriminate H;
    injection H as H; exact (DecimalPos.Unsigned.to_uint_nonnil p H).
Qed.

Lemma of_int_inj a b : PyStr.of_int a = PyStr.of_int b -> a = b.
Proof.
  unfold PyStr.of_int. intros H.
  destruct (to_int_proper a) as [Ha1 Ha2].
  destruct (to_int_proper b) as [Hb1 Hb2].
  pose proof (NilZero.isi _ Ha1 Ha2) as Ia.
  pose proof (NilZero.isi _ Hb1 Hb2) as Ib.
  rewrite H in Ia. rewrite Ia in Ib. injection Ib as Ib.
  apply DecimalZ.to_int_inj. exact Ib.
Qed.

Lemma of_int_length3 r :
  100 <= r <= 999 -> String.length (PyStr.of_int r) = 3%nat.
Proof.
  intros Hr.
  assert (Hall : forallb (fun n => Nat.eqb (String.length
                                              (PyStr.of_int (Z.of_nat n))) 3)
                         (seq 100 900) = true)
    by (vm_compute; reflexivity).
  rewrite forallb_forall in Hall.
  specialize (Hall (Z.to_nat r)).
  rewrite Z2Nat.id in Hall by lia.
  apply Nat.eqb_eq. apply Hall. apply in_seq. lia.
Qed.

Lemma trx_code_text_inj ty t1 r1 t2 r2 :
  100 <= r1 <= 999 -> 100 <= r2 <= 999 ->
  (trx_code_text ty t1 r1 = trx_code_text ty t2 r2
   <-> strftime_code t1 = strftime_code t2 /\ r1 = r2).
Proof.
  intros H1 H2. split.
  - unfold trx_code_text. intros H.
    apply (append_inv_head "TRX-") in H.
    apply append_inv_head in H.
    apply (append_inv_head "-") in H.
    apply append_inj_tail in H.
    + destruct H as [Ht Hr]. split; [exact Ht|].
      apply (append_inv_head "-") in Hr. apply of_int_inj. exact Hr.
    + simpl. rewrite !of_int_length3 by assumption. reflexivity.
  - intros [Ht ->]. unfold trx_code_text. rewrite Ht. reflexivity.
Qed.

Lemma next_randint_range w : 100 <= next_randint w <= 999.
Proof.
  unfold next_randint.
  pose proof (Z.mod_pos_bound (w_random w (w_random_reads w)) (999 - 100 + 1)).
  lia.
Qed.

Lemma generate_trx_code_run ty w :
  generate_trx_code ty w
  = (trx_code_text ty (next_now w) (next_randint w),
     mkWorld (w_db w) (w_clock w) (S (w_clock_reads w))
             (w_random w) (S (w_random_reads w))).
Proof. reflexivity. Qed.

(** ** One receipt *)

(** The item that a receipt leaves behind. *)
Lemma upsert_item_effect name category unit quantity min_stock rack expiry w :
  exists row',
    select_item (PyStr.strip name) unit
      (w_db (snd (upsert_item name category unit quantity min_stock rack
                    expiry w))) = Some row'
    /\ item_id row'
       = fst (upsert_item name category unit quantity min_stock rack expiry w)
    /\ (item_quantity row'
        == stock_of (PyStr.strip name) unit (w_db w) + quantity)%Q
    /\ (forall row, select_item (PyStr.strip name) unit (w_db w) = Some row ->
                    item_id row' = item_id row).
Proof.
  unfold stock_of.
  destruct (select_item (PyStr.strip name) unit (w_db w)) as [row|] eqn:E.
  - rewrite (upsert_item_found _ _ _ _ _ _ _ _ _ E). simpl.
    rewrite select_update_items by reflexivity.
    rewrite E. simpl. rewrite Z.eqb_refl.
    eexists. split; [reflexivity|]. simpl.
    split; [reflexivity|]. split; [reflexivity|].
    intros row0 H0. injection H0 as <-. reflexivity.
  - rewrite (upsert_item_new _ _ _ _ _ _ _ _ E). simpl.
    unfold select_item at 1. simpl.
    rewrite find_app_none by exact E.
    unfold item_matches. simpl. rewrite !String.eqb_refl. simpl.
    eexists. split; [reflexivity|]. simpl.
    split; [reflexivity|]. split; [ring|].
    intros row0 H0. discriminate H0.
Qed.

Lemma upsert_item_frame name category unit quantity min_stock rack expiry w :
  let w' := snd (upsert_item name category unit quantity min_stock rack
                   expiry w) in
  transactions (w_db w') = transactions (w_db w)
  /\ w_clock w' = w_clock w /\ w_clock_reads w' = S (w_clock_reads w)
  /\ w_random w' = w_random w /\ w_random_reads w' = w_random_reads w.
Proof.
  destruct (select_item (PyStr.strip name) unit (w_db w)) as [row|] eqn:E.
  - rewrite (upsert_item_found _ _ _ _ _ _ _ _ _ E). simpl. tauto.
  - rewrite (upsert_item_new _ _ _ _ _ _ _ _ E). simpl. tauto.
Qed.

(** What a single-item receipt with valid fields leaves behind. *)
Lemma in_single_submit_effect name unit quantity c m s r e w :
  name <> "" -> unit <> "" -> (0 < quantity)%Q ->
  let w' := exec (in_single_submit name unit quantity c m s r e) w in
  exists row' t,
    select_item (PyStr.strip name) unit (w_db w') = Some row'
    /\ (item_quantity row'
        == stock_of (PyStr.strip name) unit (w_db w) + quantity)%Q
    /\ (forall row, select_item (PyStr.strip name) unit (w_db w) = Some row ->
                    item_id row' = item_id row)
    /\ transactions (w_db w') = (transactions (w_db w) ++ [t])%list
    /\ trx_type t = "in" /\ trx_name t = name /\ trx_unit t = unit
    /\ trx_quantity t = quantity
    /\ trx_item_id t = Some (item_id row')
    /\ trx_bundle_code t = trx_code_text "in" (next_now w) (next_randint w)
    /\ w_clock w' = w_clock w
    /\ w_clock_reads w' = (3 + w_clock_reads w)%nat
    /\ w_random w' = w_random w
    /\ w_random_reads w' = S (w_random_reads w).
Proof.
  intros Hn Hu Hq w'. subst w'. unfold exec.
  remember (in_single_submit name unit quantity c m s r e w) as res eqn:Hres.
  revert Hres. unfold in_single_submit. unfold bind at 1.
  rewrite generate_trx_code_run.
  apply falsy_false_iff in Hn, Hu. apply Qleb_false_iff in Hq.
  rewrite Hn, Hu, Hq. cbn [orb].
  set (w1 := mkWorld (w_db w) (w_clock w) (S (w_clock_reads w))
                     (w_random w) (S (w_random_reads w))).
  unfold bind.
  destruct (upsert_item_effect name c unit quantity m r None w1)
    as [row' [Hsel [Hid [Hqty Hsame]]]].
  destruct (upsert_item_frame name c unit quantity m r None w1)
    as [Htrx [Hclk [Hreads [Hrnd Hrreads]]]].
  destruct (upsert_item name c unit quantity m r None w1) as [id w2].
  simpl in Hsel, Hid, Htrx, Hclk, Hreads, Hrnd, Hrreads.
  rewrite add_transaction_record_run. unfold ret.
  intros ->. simpl snd.
  exists row'. eexists. simpl.
  split; [exact Hsel|]. split; [exact Hqty|]. split; [exact Hsame|].
  split; [rewrite Htrx; reflexivity|]. simpl.
  repeat split; try reflexivity; try assumption.
  - rewrite Hid. reflexivity.
  - rewrite Hreads. reflexivity.
Qed.




(** ** Stripping twice *)

Lemma lstrip_head s :
  match PyStr.lstrip s with
  | EmptyString => True
  | String c _ => PyStr.isspace c = false
  end.
Proof.
  induction s as [|c s IH]; simpl; [exact I|].
  destruct (PyStr.isspace c) eqn:E; [exact IH | exact E].
Qed.

Lemma rstrip_idem t : PyStr.rstrip (PyStr.rstrip t) = PyStr.rstrip t.
Proof.
  induction t as [|c t IH]; simpl; [reflexivity|].
  destruct (PyStr.rstrip t) as [|c' r] eqn:E.
  - destruct (PyStr.isspace c) eqn:Ec; simpl; [reflexivity|].
    rewrite Ec. reflexivity.
  - simpl. simpl in IH. destruct (PyStr.rstrip r) as [|c'' r'] eqn:Er.
    + destruct (PyStr.isspace c'); [discriminate IH|]. rewrite IH.
      reflexivity.
    + rewrite IH. reflexivity.
Qed.

Lemma strip_idem s : PyStr.strip (PyStr.strip s) = PyStr.strip s.
Proof.
  unfold PyStr.strip.
  assert (H : PyStr.lstrip (PyStr.rstrip (PyStr.lstrip s))
              = PyStr.rstrip (PyStr.lstrip s)).
  { pose proof (lstrip_head s) as Hh.
    destruct (PyStr.lstrip s) as [|c t]; [reflexivity|].
    simpl. destruct (PyStr.rstrip t); [rewrite Hh|]; simpl; rewrite Hh;
      reflexivity. }
  rewrite H. apply rstrip_idem.
Qed.

(** ** Bulk import *)


Lemma required_columns_forallb df :
  forallb (fun r => has_column r df) ["name"; "quantity"; "unit"]
  = required_columns df.
Proof.
  unfold required_columns. simpl. rewrite andb_true_r, andb_assoc.
  reflexivity.
Qed.



(** The two sheets at work: 8 taken from a stock of 5 leaves -3, and the
    row with the empty quantity cell is inserted with 0 and counted. *)
Example import_minus8_run :
  eval (load_inventory_from_excel sheet_minus8) w_AB = Ok 1
  /\ stock_of "A" "pcs" (w_db w_AB) = 5%Q
  /\ stock_of "A" "pcs" (w_db (exec (load_inventory_from_excel sheet_minus8)
                                 w_AB)) = (-3)%Q.
Proof. vm_compute. repeat split. Qed.

Example import_nan_run :
  eval (load_inventory_from_excel sheet_nan) w_AB = Ok 1
  /\ select_item "Gula" "kg" (w_db w_AB) = None
  /\ option_map item_quantity
       (select_item "Gula" "kg"
          (w_db (exec (load_inventory_from_excel sheet_nan) w_AB)))
     = Some 0%Q.
Proof. vm_compute. repeat split. Qed.

(** ** Grouping and merging *)

Section GroupByFacts.
Context {K : Type} (eqb : K -> K -> bool).
Hypothesis eqb_eq : forall a b, eqb a b = true <-> a = b.








End GroupByFacts.

Lemma key_eqb_eq a b : key_eqb a b = true <-> a = b.
Proof.
  unfold key_eqb. rewrite andb_true_iff, !String.eqb_eq.
  destruct a, b; simpl. split; [intros [-> ->]; reflexivity|].
  intros H. injection H as -> ->. auto.
Qed.

(** ** Totals per item *)




(** ** Month comparison *)

(** C7. [compare_months] asks the [.dt] accessor of the period column
    for [to_created_at], which the accessor does not have (the sibling
    [load_transactions_df] asks for [to_timestamp]); so every call
    raises [AttributeError] before any row is selected, and no
    difference or percentage is computed, also not for the log with 10
    in January and 15 in February. *)
Theorem compare_months_raises df month_a month_b items_list :
  compare_months df month_a month_b items_list
  = Raise (AttributeError "to_created_at")
  /\ compare_months df_jan_feb month_jan month_feb None
     = Raise (AttributeError "to_created_at").
Proof. split; reflexivity. Qed.

(** With the month column that [load_transactions_df] builds, the rest
    of the function gives what is expected of it on that log. *)
Example compare_months_from_jan_feb :
  exists difference pct_change,
    compare_months_from (map (fun r => (r, tr_month r)) df_jan_feb)
      month_jan month_feb None
    = [mkCmpRow "Beras" [(month_jan, 10%Q); (month_feb, 15%Q)]
         (Some difference) (Some (Some pct_change))]
    /\ (difference == 5)%Q /\ (pct_change == 50)%Q.
Proof.
  eexists. eexists. split; [vm_compute; reflexivity|].
  split; reflexivity.
Qed.

(* ------------------------------------------------------------------ *)
(** * Invariants of the store and of the log                           *)
(* ------------------------------------------------------------------ *)

(** A property that the helpers keep, under the checks that the forms
    make before they call them, is kept by every form. *)
Lemma run_op_preserves (P : World -> Prop) :
  (forall n c u q m r e, (0 < q)%Q ->
     preserves P (upsert_item n c u q m r e)) ->
  (forall n u q, (0 < q)%Q -> preserves P (adjust_item_for_out n u q)) ->
  (forall ty id n q u rq sp note code,
     ty = "in" \/ ty = "out" -> (0 < q)%Q -> n <> "" -> u <> "" ->
     preserves P (add_transaction_record ty id n q u rq sp note code code
                    None)) ->
  (forall ty, preserves P (generate_trx_code ty)) ->
  forall op, preserves P (run_op op).
Proof.
  intros Hup Hadj Hadd Hgen op. destruct op as
    [n u q c m s r e | rows s note | n u q r note | rows r]; simpl.
  - unfold in_single_submit.
    apply preserves_bind; [apply Hgen|]. intros code.
    destruct (PyStr.falsy n || Qleb q 0 || PyStr.falsy u) eqn:E;
      [apply preserves_ret|].
    apply orb_false_iff in E. destruct E as [E Eu].
    apply orb_false_iff in E. destruct E as [En Eq].
    apply Qleb_false_iff in Eq. apply falsy_false_iff in En, Eu.
    apply preserves_bind; [apply Hup; exact Eq|]. intros id.
    apply preserves_bind; [apply Hadd; auto|]. intros _.
    apply preserves_ret.
  - unfold in_multi_submit.
    destruct rows as [|r0 rows0]; [apply preserves_ret|].
    remember (r0 :: rows0) as rows eqn:Hrows. clear Hrows.
    destruct (invalid_rows in_line_bad 0 rows) eqn:E; [|apply preserves_ret].
    apply invalid_rows_nil in E.
    apply preserves_bind; [apply Hgen|]. intros code.
    apply preserves_bind; [|intros _; apply preserves_ret].
    apply preserves_for_each.
    eapply Forall_impl; [|exact E]. intros it Hit. simpl in Hit.
    unfold in_line_bad in Hit.
    apply orb_false_iff in Hit. destruct Hit as [Hit Eu].
    apply orb_false_iff in Hit. destruct Hit as [En Eq].
    apply Qleb_false_iff in Eq. apply falsy_false_iff in En, Eu.
    apply preserves_bind; [apply Hup; exact Eq|]. intros id.
    apply Hadd; auto.
  - unfold out_single_submit.
    apply preserves_bind; [apply Hgen|]. intros code.
    destruct (PyStr.falsy n || Qleb q 0 || PyStr.falsy u || PyStr.falsy r)
      eqn:E; [apply preserves_ret|].
    apply orb_false_iff in E. destruct E as [E _].
    apply orb_false_iff in E. destruct E as [E Eu].
    apply orb_false_iff in E. destruct E as [En Eq].
    apply Qleb_false_iff in Eq. apply falsy_false_iff in En, Eu.
    intros w Hw. unfold bind at 1. unfold get_db at 1.
    destruct (select_item n u (w_db w)) as [row|]; [|exact Hw].
    destruct (Qltb (item_quantity row) q); [exact Hw|].
    revert w Hw. change (preserves P
      (res <- adjust_item_for_out n u q ;;
       add_transaction_record "out" (fst res) n q u (Some r) None note code
         code None ;;; ret (Sukses code))).
    apply preserves_bind; [apply Hadj; exact Eq|]. intros res.
    apply preserves_bind; [apply Hadd; auto|]. intros _.
    apply preserves_ret.
  - unfold out_multi_submit.
    destruct rows as [|r0 rows0]; [apply preserves_ret|].
    remember (r0 :: rows0) as rows eqn:Hrows. clear Hrows.
    destruct (PyStr.falsy r); [apply preserves_ret|].
    destruct (invalid_rows out_line_bad 0 rows) eqn:E; [|apply preserves_ret].
    apply invalid_rows_nil in E.
    intros w Hw. unfold bind at 1. unfold get_db at 1.
    destruct (check_stock (w_db w) rows); [|exact Hw].
    revert w Hw. apply preserves_bind; [apply Hgen|]. intros code.
    apply preserves_bind; [|intros _; apply preserves_ret].
    apply preserves_for_each.
    eapply Forall_impl; [|exact E]. intros it Hit. simpl in Hit.
    unfold out_line_bad in Hit.
    apply orb_false_iff in Hit. destruct Hit as [Hit Eu].
    apply orb_false_iff in Hit. destruct Hit as [En Eq].
    apply Qleb_false_iff in Eq. apply falsy_false_iff in En, Eu.
    apply preserves_bind; [apply Hadj; exact Eq|]. intros res.
    apply Hadd; auto.
Qed.

(** A property that [upsert_item] keeps is kept by the import. *)
Lemma import_preserves (P : World -> Prop) df :
  (forall n c u q m r e, preserves P (upsert_item n c u q m r e)) ->
  preserves P (load_inventory_from_excel df).
Proof.
  intros Hup. unfold load_inventory_from_excel.
  destruct (forallb (fun r => has_column r df) ["name"; "quantity"; "unit"]);
    [|apply preserves_ret].
  apply preserves_bind; [|intros n; apply preserves_ret].
  generalize 0. induction (sh_rows df) as [|row rest IH]; intros k; simpl.
  - apply preserves_ret.
  - apply preserves_bind; [apply Hup|]. intros _. apply IH.
Qed.

Lemma map_update_stable {B} (g : Item -> B) id f l :
  (forall it, g (f it) = g it) ->
  map g (map (fun it => if item_id it =? id then f it else it) l) = map g l.
Proof.
  intros Hg. rewrite map_map. apply map_ext. intros it.
  destruct (item_id it =? id); [apply Hg | reflexivity].
Qed.

Lemma Forall_update_stable (Q : Item -> Prop) id f l :
  (forall it, Q it -> Q (f it)) ->
  Forall Q l ->
  Forall Q (map (fun it => if item_id it =? id then f it else it) l).
Proof.
  intros HQ H. induction H as [|it l Hit _ IH]; simpl; constructor;
    [|exact IH].
  destruct (item_id it =? id); [apply HQ|]; exact Hit.
Qed.

Lemma update_items_store_wf id f d :
  (forall it, item_id (f it) = item_id it) ->
  (forall it, item_name (f it) = item_name it) ->
  (forall it, item_unit (f it) = item_unit it) ->
  store_wf d -> store_wf (update_items id f d).
Proof.
  intros Hid Hn Hu [[Hnd Hle] [Hk Hs]].
  unfold store_wf, ids_wf, keys_unique, names_stripped, update_items. simpl.
  repeat split.
  - rewrite map_update_stable by exact Hid. exact Hnd.
  - apply Forall_update_stable; [|exact Hle]. intros it. rewrite Hid. auto.
  - rewrite map_update_stable; [exact Hk|].
    intros it. unfold item_key. rewrite Hn, Hu. reflexivity.
  - apply Forall_update_stable; [|exact Hs]. intros it. rewrite Hn. auto.
Qed.

Lemma select_item_none_iff name unit d :
  select_item name unit d = None <-> ~ In (name, unit) (map item_key (items d)).
Proof.
  unfold select_item. split.
  - intros H Hin. apply in_map_iff in Hin. destruct Hin as [it [Hk Hin]].
    pose proof (find_none _ _ H it Hin) as Hf.
    unfold item_key in Hk. injection Hk as <- <-.
    rewrite item_matches_refl in Hf. discriminate Hf.
  - intros Hnin. destruct (find (item_matches name unit) (items d)) as [it|]
      eqn:E; [|reflexivity].
    exfalso. apply Hnin. apply find_some in E. destruct E as [Hin Hm].
    apply in_map_iff. exists it. split; [|exact Hin].
    unfold item_matches in Hm. apply andb_true_iff in Hm.
    destruct Hm as [H1 H2]. apply String.eqb_eq in H1, H2.
    unfold item_key. rewrite H1, H2. reflexivity.
Qed.

Lemma NoDup_snoc {A} (l : list A) x : NoDup l -> ~ In x l -> NoDup (l ++ [x]).
Proof.
  intros Hnd Hnin. apply NoDup_app; [exact Hnd | repeat constructor; auto |].
  intros a Ha [<- | []]. exact (Hnin Ha).
Qed.

Lemma upsert_item_store_wf name category unit quantity min_stock rack expiry :
  preserves (fun w => store_wf (w_db w))
    (upsert_item name category unit quantity min_stock rack expiry).
Proof.
  intros w Hw.
  destruct (select_item (PyStr.strip name) unit (w_db w)) as [row|] eqn:E.
  - rewrite (upsert_item_found _ _ _ _ _ _ _ _ _ E). simpl.
    apply update_items_store_wf; auto.
  - rewrite (upsert_item_new _ _ _ _ _ _ _ _ E). simpl.
    destruct Hw as [[Hnd Hle] [Hk Hs]].
    unfold store_wf, ids_wf, keys_unique, names_stripped. simpl.
    rewrite !map_app. simpl. repeat split.
    + apply NoDup_snoc; [exact Hnd|]. intros Hin.
      apply in_map_iff in Hin. destruct Hin as [it [Hid Hin]].
      rewrite Forall_forall in Hle. specialize (Hle it Hin). lia.
    + apply Forall_app. split.
      * eapply Forall_impl; [|exact Hle]. intros it Hit. simpl in Hit. lia.
      * repeat constructor. simpl. lia.
    + apply NoDup_snoc; [exact Hk|].
      apply select_item_none_iff. exact E.
    + apply Forall_app. split; [exact Hs|].
      repeat constructor. simpl. apply strip_idem.
Qed.

Lemma adjust_item_for_out_store_wf name unit quantity :
  preserves (fun w => store_wf (w_db w))
    (adjust_item_for_out name unit quantity).
Proof.
  intros w Hw. unfold adjust_item_for_out, bind, get_db. simpl.
  destruct (select_item name unit (w_db w)) as [row|]; simpl; [|exact Hw].
  destruct (Qltb (item_quantity row) quantity); simpl; [exact Hw|].
  apply update_items_store_wf; auto.
Qed.

Lemma run_store_op_store_wf op w :
  store_wf (w_db w) -> store_wf (w_db (run_store_op op w)).
Proof.
  destruct op as [o | df]; simpl.
  - apply (run_op_preserves (fun w => store_wf (w_db w))).
    + intros. apply upsert_item_store_wf.
    + intros. apply adjust_item_for_out_store_wf.
    + intros. intros w' Hw'. exact Hw'.
    + intros ty w' Hw'. exact Hw'.
  - apply (import_preserves (fun w => store_wf (w_db w))).
    intros. apply upsert_item_store_wf.
Qed.

Lemma init_store_wf : store_wf init_db.
Proof.
  unfold store_wf, ids_wf, keys_unique, names_stripped. simpl.
  repeat split; constructor.
Qed.

Lemma reachable_store_wf w : reachable_store w -> store_wf (w_db w).
Proof.
  induction 1 as [clock rnd | op w _ IH].
  - apply init_store_wf.
  - apply run_store_op_store_wf. exact IH.
Qed.

Lemma reachable_store_w_AB : reachable_store w_AB.
Proof.
  unfold w_AB. simpl run_ops.
  apply (rs_step (Ledger (InSingle "B" "pcs" 5 "" 0 "" "" ""))).
  apply (rs_step (Ledger (InSingle "A" "pcs" 5 "" 0 "" "" ""))).
  apply rs_init.
Qed.

Lemma reachable_store_w_AB_gula : reachable_store w_AB_gula.
Proof. apply rs_step. apply reachable_store_w_AB. Qed.

(** X1. In every state that forms and imports can reach from an empty
    database, the ids of the items are distinct and not above the
    counter, no two items have the same (name, unit), and every stored
    name is stripped. *)
Theorem store_stays_well_formed w :
  reachable_store w ->
  NoDup (map item_id (items (w_db w)))
  /\ Forall (fun it => item_id it <= items_seq (w_db w)) (items (w_db w))
  /\ NoDup (map item_key (items (w_db w)))
  /\ Forall (fun it => PyStr.strip (item_name it) = item_name it)
            (items (w_db w)).
Proof.
  intros H. destruct (reachable_store_wf w H) as [[H1 H2] [H3 H4]].
  auto.
Qed.

Lemma store_stays_well_formed_witness :
  reachable_store w_AB_gula
  /\ NoDup (map item_id (items (w_db w_AB_gula)))
  /\ Forall (fun it => item_id it <= items_seq (w_db w_AB_gula))
            (items (w_db w_AB_gula))
  /\ NoDup (map item_key (items (w_db w_AB_gula)))
  /\ Forall (fun it => PyStr.strip (item_name it) = item_name it)
            (items (w_db w_AB_gula)).
Proof.
  split; [exact reachable_store_w_AB_gula|].
  exact (store_stays_well_formed w_AB_gula reachable_store_w_AB_gula).
Defined.

(** ** The movement log *)

Lemma upsert_item_log name category unit quantity min_stock rack expiry w :
  let w' := snd (upsert_item name category unit quantity min_stock rack
                   expiry w) in
  transactions (w_db w') = transactions (w_db w)
  /\ transactions_seq (w_db w') = transactions_seq (w_db w).
Proof.
  destruct (select_item (PyStr.strip name) unit (w_db w)) as [row|] eqn:E.
  - rewrite (upsert_item_found _ _ _ _ _ _ _ _ _ E). simpl. tauto.
  - rewrite (upsert_item_new _ _ _ _ _ _ _ _ E). simpl. tauto.
Qed.

Lemma adjust_item_for_out_log name unit quantity w :
  let w' := snd (adjust_item_for_out name unit quantity w) in
  transactions (w_db w') = transactions (w_db w)
  /\ transactions_seq (w_db w') = transactions_seq (w_db w).
Proof.
  unfold adjust_item_for_out, bind, get_db. simpl.
  destruct (select_item name unit (w_db w)) as [row|]; simpl; [|tauto].
  destruct (Qltb (item_quantity row) quantity); simpl; tauto.
Qed.

(** A property of the log alone is kept by the helpers that do not
    write to it. *)
Lemma log_only_upsert (P : list Trx -> Z -> Prop) n c u q m r e :
  preserves (fun w => P (transactions (w_db w)) (transactions_seq (w_db w)))
    (upsert_item n c u q m r e).
Proof.
  intros w Hw. destruct (upsert_item_log n c u q m r e w) as [H1 H2].
  simpl in H1, H2. rewrite H1, H2. exact Hw.
Qed.

Lemma log_only_adjust (P : list Trx -> Z -> Prop) n u q :
  preserves (fun w => P (transactions (w_db w)) (transactions_seq (w_db w)))
    (adjust_item_for_out n u q).
Proof.
  intros w Hw. destruct (adjust_item_for_out_log n u q w) as [H1 H2].
  simpl in H1, H2. rewrite H1, H2. exact Hw.
Qed.

Lemma add_transaction_record_log_wf ty id n q u rq sp note code :
  ty = "in" \/ ty = "out" -> (0 < q)%Q -> n <> "" -> u <> "" ->
  preserves (fun w => log_wf (w_db w))
    (add_transaction_record ty id n q u rq sp note code code None).
Proof.
  intros Hty Hq Hn Hu w [Hwf [Hnd Hle]].
  rewrite add_transaction_record_run. unfold log_wf. simpl.
  rewrite map_app. simpl. repeat split.
  - apply Forall_app. split; [exact Hwf|].
    constructor; [|constructor].
    unfold trx_wf. simpl. repeat split; assumption || reflexivity.
  - apply NoDup_snoc; [exact Hnd|]. intros Hin.
    apply in_map_iff in Hin. destruct Hin as [t [Hid Hin]].
    rewrite Forall_forall in Hle. specialize (Hle t Hin). lia.
  - apply Forall_app. split.
    + eapply Forall_impl; [|exact Hle]. intros t Ht. simpl in Ht. lia.
    + repeat constructor. simpl. lia.
Qed.

Lemma run_store_op_log_wf op w :
  log_wf (w_db w) -> log_wf (w_db (run_store_op op w)).
Proof.
  destruct op as [o | df]; simpl.
  - apply (run_op_preserves (fun w => log_wf (w_db w))).
    + intros. apply (log_only_upsert
        (fun l s => Forall trx_wf l /\ NoDup (map trx_id l)
                    /\ Forall (fun t => trx_id t <= s) l)).
    + intros. apply (log_only_adjust
        (fun l s => Forall trx_wf l /\ NoDup (map trx_id l)
                    /\ Forall (fun t => trx_id t <= s) l)).
    + intros. apply add_transaction_record_log_wf; assumption.
    + intros ty w' Hw'. exact Hw'.
  - apply (import_preserves (fun w => log_wf (w_db w))).
    intros. apply (log_only_upsert
        (fun l s => Forall trx_wf l /\ NoDup (map trx_id l)
                    /\ Forall (fun t => trx_id t <= s) l)).
Qed.

Lemma reachable_log_wf w : reachable_store w -> log_wf (w_db w).
Proof.
  induction 1 as [clock rnd | op w _ IH].
  - unfold log_wf. simpl. repeat split; constructor.
  - apply run_store_op_log_wf. exact IH.
Qed.

(** X2. In every state that forms and imports can reach from an empty
    database, every movement of the log has a positive quantity, a
    bundle code equal to its transaction code, the type 'in' or 'out',
    a name and a unit that are not empty; and the ids of the movements
    are distinct. *)
Theorem log_stays_well_formed w :
  reachable_store w ->
  Forall (fun t => (0 < trx_quantity t)%Q
                   /\ trx_bundle_code t = trx_trx_code t
                   /\ (trx_type t = "in" \/ trx_type t = "out")
                   /\ trx_name t <> "" /\ trx_unit t <> "")
         (transactions (w_db w))
  /\ NoDup (map trx_id (transactions (w_db w))).
Proof.
  intros H. destruct (reachable_log_wf w H) as [H1 [H2 _]].
  split; [exact H1 | exact H2].
Qed.

Lemma log_stays_well_formed_witness :
  reachable_store w_AB_gula
  /\ Forall (fun t => (0 < trx_quantity t)%Q
                      /\ trx_bundle_code t = trx_trx_code t
                      /\ (trx_type t = "in" \/ trx_type t = "out")
                      /\ trx_name t <> "" /\ trx_unit t <> "")
            (transactions (w_db w_AB_gula))
  /\ NoDup (map trx_id (transactions (w_db w_AB_gula))).
Proof.
  split; [exact reachable_store_w_AB_gula|].
  exact (log_stays_well_formed w_AB_gula reachable_store_w_AB_gula).
Defined.

Lemma add_transaction_record_extends base ty id n q u rq sp note b c e :
  preserves (log_extends base)
    (add_transaction_record ty id n q u rq sp note b c e).
Proof.
  intros w [more Hmore]. rewrite add_transaction_record_run.
  unfold log_extends. simpl. rewrite Hmore, <- app_assoc.
  eexists. reflexivity.
Qed.

(** X3. The movement log is append-only: whatever form is submitted,
    the log of before is a prefix of the log of after, so no movement
    is ever changed or removed; and an import leaves the log as it is
    (imported rows leave no movement behind). *)
Theorem log_is_append_only w :
  (forall op, exists more,
      transactions (w_db (run_store_op op w))
      = (transactions (w_db w) ++ more)%list)
  /\ (forall df,
        transactions (w_db (run_store_op (Import df) w))
        = transactions (w_db w)).
Proof.
  assert (Himp : forall df,
             transactions (w_db (run_store_op (Import df) w))
             = transactions (w_db w)).
  { intros df. simpl.
    apply (import_preserves
             (fun w' => transactions (w_db w') = transactions (w_db w)));
      [|reflexivity].
    intros n c u q m r e w' Hw'.
    destruct (upsert_item_log n c u q m r e w') as [H1 _]. simpl in H1.
    rewrite H1. exact Hw'. }
  split; [|exact Himp].
  intros [o | df].
  - simpl.
    apply (run_op_preserves (log_extends (transactions (w_db w)))).
    + intros n c u q m r e _ w' [more Hw'].
      destruct (upsert_item_log n c u q m r e w') as [H1 _]. simpl in H1.
      exists more. rewrite H1. exact Hw'.
    + intros n u q _ w' [more Hw'].
      destruct (adjust_item_for_out_log n u q w') as [H1 _]. simpl in H1.
      exists more. rewrite H1. exact Hw'.
    + intros. apply add_transaction_record_extends.
    + intros ty w' Hw'. exact Hw'.
    + exists []. rewrite app_nil_r. reflexivity.
  - exists []. rewrite app_nil_r. apply Himp.
Qed.

(* ------------------------------------------------------------------ *)
(** * The helpers one by one                                           *)
(* ------------------------------------------------------------------ *)

Lemma item_matches_key name unit it :
  item_matches name unit it = true <-> item_key it = (name, unit).
Proof.
  unfold item_matches, item_key. rewrite andb_true_iff, !String.eqb_eq.
  split; [intros [-> ->]; reflexivity|].
  intros H. injection H as -> ->. auto.
Qed.

Lemma NoDup_map_inj {A B} (f : A -> B) l a b :
  NoDup (map f l) -> In a l -> In b l -> f a = f b -> a = b.
Proof.
  induction l as [|x l IH]; simpl; intros Hnd Ha Hb Hf; [contradiction|].
  inversion Hnd as [|? ? Hnin Hnd']; subst.
  destruct Ha as [-> | Ha], Hb as [-> | Hb].
  - reflexivity.
  - exfalso. apply Hnin. rewrite Hf. apply in_map. exact Hb.
  - exfalso. apply Hnin. rewrite <- Hf. apply in_map. exact Ha.
  - apply IH; assumption.
Qed.

(** With distinct ids, an [UPDATE ... WHERE id=?] of the row of one key
    leaves the lookup of every other key as it was. *)
Lemma select_update_other name unit name' unit' f d row :
  NoDup (map item_id (items d)) ->
  (forall it, item_name (f it) = item_name it) ->
  (forall it, item_unit (f it) = item_unit it) ->
  select_item name unit d = Some row ->
  (name', unit') <> (name, unit) ->
  select_item name' unit' (update_items (item_id row) f d)
  = select_item name' unit' d.
Proof.
  intros Hnd Hn Hu Hsel Hne.
  rewrite select_update_items by assumption.
  destruct (select_item name' unit' d) as [row'|] eqn:E; [|reflexivity].
  simpl. destruct (item_id row' =? item_id row) eqn:Eid; [|reflexivity].
  exfalso. apply Z.eqb_eq in Eid.
  assert (row' = row).
  { apply (NoDup_map_inj item_id (items d)); try assumption.
    - eapply select_item_In; exact E.
    - eapply select_item_In; exact Hsel. }
  subst row'. apply select_item_matches in E, Hsel.
  destruct E as [E1 E2], Hsel as [H1 H2]. apply Hne. congruence.
Qed.

Lemma find_app_some {A} (p : A -> bool) l l' x :
  find p l = Some x -> find p (l ++ l') = Some x.
Proof.
  induction l as [|y l IH]; simpl; [discriminate|].
  destruct (p y); [auto | exact IH].
Qed.

Lemma select_insert_other name unit name' unit' mk d :
  item_key (mk (items_seq d + 1)) = (name, unit) ->
  (name', unit') <> (name, unit) ->
  select_item name' unit' (snd (insert_item mk d))
  = select_item name' unit' d.
Proof.
  intros Hk Hne. unfold select_item, insert_item. simpl.
  destruct (find (item_matches name' unit') (items d)) as [row'|] eqn:E.
  - apply find_app_some. exact E.
  - rewrite find_app_none by exact E.
    destruct (item_matches name' unit' (mk (items_seq d + 1))) eqn:Em;
      [|reflexivity].
    apply item_matches_key in Em. exfalso. apply Hne. congruence.
Qed.

(** X4. When [upsert_item] finds no row for the stripped name and the
    unit, it appends one row with the next id of the counter, the
    stripped name and the given fields, and returns that id; a lookup
    of the new key finds the new row, the lookup of every other key is
    as before, and no movement is written. *)
Theorem upsert_new_item w name category unit quantity min_stock rack expiry :
  select_item (PyStr.strip name) unit (w_db w) = None ->
  let w' := exec (upsert_item name category unit quantity min_stock rack
                    expiry) w in
  let row := mkItem (items_seq (w_db w) + 1) (PyStr.strip name) category unit
                    quantity min_stock rack expiry (next_now w) (next_now w) in
  eval (upsert_item name category unit quantity min_stock rack expiry) w
  = items_seq (w_db w) + 1
  /\ items (w_db w') = (items (w_db w) ++ [row])%list
  /\ select_item (PyStr.strip name) unit (w_db w') = Some row
  /\ (forall name' unit',
        (name', unit') <> (PyStr.strip name, unit) ->
        select_item name' unit' (w_db w') = select_item name' unit' (w_db w))
  /\ transactions (w_db w') = transactions (w_db w).
Proof.
  intros Hnone w' row. subst w'. unfold exec, eval.
  rewrite (upsert_item_new _ _ _ _ _ _ _ _ Hnone). simpl.
  split; [reflexivity|]. split; [reflexivity|]. split; [|split].
  - unfold select_item. simpl. rewrite find_app_none by exact Hnone.
    unfold item_matches. simpl. rewrite !String.eqb_refl. reflexivity.
  - intros name' unit' Hne.
    apply (select_insert_other (PyStr.strip name) unit name' unit'
             (fun id => mkItem id (PyStr.strip name) category unit quantity
                          min_stock rack expiry (next_now w) (next_now w))
             (w_db w)); [reflexivity | exact Hne].
  - reflexivity.
Qed.

Lemma upsert_new_item_witness :
  select_item (PyStr.strip " Gula ") "kg" (w_db w_AB) = None
  /\ eval (upsert_item " Gula " "pokok" "kg" 4 1 "R2" None) w_AB
     = items_seq (w_db w_AB) + 1
  /\ select_item (PyStr.strip " Gula ") "kg"
       (w_db (exec (upsert_item " Gula " "pokok" "kg" 4 1 "R2" None) w_AB))
     = Some (mkItem (items_seq (w_db w_AB) + 1) (PyStr.strip " Gula ")
               "pokok" "kg" 4 1 "R2" None (next_now w_AB) (next_now w_AB)).
Proof.
  assert (H : select_item (PyStr.strip " Gula ") "kg" (w_db w_AB) = None)
    by (vm_compute; reflexivity).
  split; [exact H|].
  destruct (upsert_new_item w_AB " Gula " "pokok" "kg" 4 1 "R2" None H)
    as [H1 [_ [H3 _]]].
  split; [exact H1 | exact H3].
Defined.

(** X5. When the item is there and the stock covers the request,
    [adjust_item_for_out] returns the id of the item and no error; the
    row then holds the old quantity minus the requested one and is
    otherwise as before; with distinct ids in the store, the lookup of
    every other key is as before; and no movement is written. *)
Theorem adjust_item_for_out_deducts w name unit quantity row :
  select_item name unit (w_db w) = Some row ->
  (quantity <= item_quantity row)%Q ->
  NoDup (map item_id (items (w_db w))) ->
  let w' := exec (adjust_item_for_out name unit quantity) w in
  eval (adjust_item_for_out name unit quantity) w = (Some (item_id row), None)
  /\ select_item name unit (w_db w')
     = Some (set_quantity (item_quantity row - quantity)%Q row)
  /\ (forall name' unit',
        (name', unit') <> (name, unit) ->
        select_item name' unit' (w_db w') = select_item name' unit' (w_db w))
  /\ transactions (w_db w') = transactions (w_db w).
Proof.
  intros Hsel Hle Hnd w'. subst w'. unfold exec, eval.
  rewrite (adjust_item_for_out_ok _ _ _ _ _ Hsel Hle). simpl.
  split; [reflexivity|]. split; [|split].
  - rewrite select_update_items by reflexivity.
    rewrite Hsel. simpl. rewrite Z.eqb_refl. reflexivity.
  - intros name' unit' Hne.
    apply (select_update_other name unit); auto.
  - reflexivity.
Qed.

Lemma adjust_item_for_out_deducts_witness :
  select_item "A" "pcs" (w_db w_AB) = Some row_A
  /\ (2 <= item_quantity row_A)%Q
  /\ NoDup (map item_id (items (w_db w_AB)))
  /\ eval (adjust_item_for_out "A" "pcs" 2) w_AB = (Some (item_id row_A), None)
  /\ select_item "A" "pcs" (w_db (exec (adjust_item_for_out "A" "pcs" 2) w_AB))
     = Some (set_quantity (item_quantity row_A - 2)%Q row_A).
Proof.
  assert (H1 : select_item "A" "pcs" (w_db w_AB) = Some row_A)
    by (vm_compute; reflexivity).
  assert (H2 : (2 <= item_quantity row_A)%Q) by (vm_compute; discriminate).
  assert (H3 : NoDup (map item_id (items (w_db w_AB)))).
  { vm_compute. repeat constructor; simpl; intuition discriminate. }
  split; [exact H1|]. split; [exact H2|]. split; [exact H3|].
  destruct (adjust_item_for_out_deducts w_AB "A" "pcs" 2 row_A H1 H2 H3)
    as [Ha [Hb _]].
  split; [exact Ha | exact Hb].
Defined.

Lemma strip_nonempty name : PyStr.strip name <> name -> name <> "".
Proof. intros H ->. apply H. reflexivity. Qed.

(** X6. Receipts store the stripped name, issues look the typed name up
    as it is. So in every state that forms and imports can reach, a
    name with white space around it finds no item: [adjust_item_for_out]
    answers 'Item tidak ditemukan' and changes nothing, and the
    single-item issue form, with its fields filled in, shows 'Item
    tidak ditemukan di inventory'. *)
Theorem unstripped_name_never_found w name unit :
  reachable_store w ->
  PyStr.strip name <> name ->
  select_item name unit (w_db w) = None
  /\ (forall q, adjust_item_for_out name unit q w
                = ((None, Some ItemTidakDitemukan), w))
  /\ (forall q requester note,
        unit <> "" -> requester <> "" -> (0 < q)%Q ->
        eval (out_single_submit name unit q requester note) w
        = ErrItemNotFound).
Proof.
  intros Hr Hstrip.
  assert (Hnone : select_item name unit (w_db w) = None).
  { destruct (select_item name unit (w_db w)) as [row|] eqn:E;
      [|reflexivity].
    exfalso. destruct (reachable_store_wf w Hr) as [_ [_ Hs]].
    unfold names_stripped in Hs. rewrite Forall_forall in Hs.
    specialize (Hs row (select_item_In _ _ _ _ E)).
    apply select_item_matches in E. destruct E as [E _].
    rewrite E in Hs. contradiction. }
  split; [exact Hnone|]. split.
  - intros q. apply adjust_item_for_out_missing. exact Hnone.
  - intros q requester note Hu Hreq Hq.
    pose proof (strip_nonempty name Hstrip) as Hn.
    unfold eval, out_single_submit, bind.
    pose proof (generate_trx_code_untouched "out" w) as Hdb.
    destruct (generate_trx_code "out" w) as [code w1]. simpl in Hdb.
    apply falsy_false_iff in Hn, Hu, Hreq. apply Qleb_false_iff in Hq.
    rewrite Hn, Hu, Hreq, Hq. cbn [orb].
    unfold get_db. rewrite Hdb, Hnone. reflexivity.
Qed.

Lemma unstripped_name_never_found_witness :
  reachable_store w_AB
  /\ PyStr.strip " A" <> " A"
  /\ select_item " A" "pcs" (w_db w_AB) = None
  /\ (forall q, adjust_item_for_out " A" "pcs" q w_AB
                = ((None, Some ItemTidakDitemukan), w_AB))
  /\ (forall q requester note,
        "pcs" <> "" -> requester <> "" -> (0 < q)%Q ->
        eval (out_single_submit " A" "pcs" q requester note) w_AB
        = ErrItemNotFound).
Proof.
  assert (H : PyStr.strip " A" <> " A") by (vm_compute; discriminate).
  split; [exact reachable_store_w_AB|]. split; [exact H|].
  exact (unstripped_name_never_found w_AB " A" "pcs" reachable_store_w_AB H).
Defined.

(** X7. The unit that [get_item_unit] fills in for a name of the store
    is the unit of the first row with that name, so the pair of the name
    and that unit is always found by the lookup of the forms. *)
Theorem get_item_unit_finds_item d name :
  name <> "" ->
  (exists it, In it (items d) /\ item_name it = name) ->
  exists row, select_item name (get_item_unit name d) d = Some row
              /\ item_unit row = get_item_unit name d.
Proof.
  intros Hn [it [Hin Hname]]. unfold get_item_unit.
  apply falsy_false_iff in Hn. rewrite Hn.
  destruct (find (fun it0 => String.eqb (item_name it0) name) (items d))
    as [row|] eqn:E.
  - exists row. split; [|reflexivity].
    unfold select_item. clear it Hin Hname.
    induction (items d) as [|x l IH]; simpl in *; [discriminate|].
    unfold item_matches at 1.
    destruct (String.eqb (item_name x) name) eqn:Ex.
    + injection E as ->. rewrite String.eqb_refl. reflexivity.
    + simpl. apply IH. exact E.
  - exfalso. pose proof (find_none _ _ E it Hin) as Hf. simpl in Hf.
    rewrite Hname, String.eqb_refl in Hf. discriminate Hf.
Qed.

Lemma get_item_unit_finds_item_witness :
  "A" <> ""
  /\ (exists it, In it (items (w_db w_AB)) /\ item_name it = "A")
  /\ exists row,
       select_item "A" (get_item_unit "A" (w_db w_AB)) (w_db w_AB) = Some row
       /\ item_unit row = get_item_unit "A" (w_db w_AB).
Proof.
  assert (H1 : "A" <> "") by (intros H; discriminate H).
  assert (H2 : exists it, In it (items (w_db w_AB)) /\ item_name it = "A").
  { exists row_A. split; [vm_compute; left; reflexivity | reflexivity]. }
  split; [exact H1|]. split; [exact H2|].
  exact (get_item_unit_finds_item (w_db w_AB) "A" H1 H2).
Defined.

(** For a name that the store does not have, or an empty name, the unit
    filled in is the empty text. *)
Lemma get_item_unit_unknown d name :
  name = "" \/ (forall it, In it (items d) -> item_name it <> name) ->
  get_item_unit name d = "".
Proof.
  intros [-> | Hno]; [reflexivity|].
  unfold get_item_unit. destruct (PyStr.falsy name); [reflexivity|].
  destruct (find (fun it0 => String.eqb (item_name it0) name) (items d))
    as [row|] eqn:E; [|reflexivity].
  exfalso. apply find_some in E. destruct E as [Hin Heq].
  apply String.eqb_eq in Heq. exact (Hno row Hin Heq).
Qed.

(** ** The list of names of the drop-downs *)

Lemma insert_sorted_perm s l : Permutation (s :: l) (insert_sorted s l).
Proof.
  induction l as [|x l IH]; simpl; [apply Permutation_refl|].
  destruct (String.leb s x); [apply Permutation_refl|].
  eapply perm_trans; [apply perm_swap|]. apply perm_skip. exact IH.
Qed.

Lemma insert_sorted_hd s x l :
  String.leb x s = true ->
  HdRel (fun a b => String.leb a b = true) x l ->
  HdRel (fun a b => String.leb a b = true) x (insert_sorted s l).
Proof.
  intros Hxs Hhd. destruct l as [|y l]; simpl.
  - constructor. exact Hxs.
  - destruct (String.leb s y); constructor; [exact Hxs|].
    inversion Hhd. assumption.
Qed.

Lemma insert_sorted_sorted s l :
  Sorted (fun a b => String.leb a b = true) l ->
  Sorted (fun a b => String.leb a b = true) (insert_sorted s l).
Proof.
  induction 1 as [|x l Hs IH Hhd]; simpl.
  - repeat constructor.
  - destruct (String.leb s x) eqn:E.
    + constructor; [constructor; assumption|]. constructor. exact E.
    + constructor; [exact IH|].
      apply insert_sorted_hd; [|exact Hhd].
      destruct (String.leb_total s x) as [H | H]; [congruence | exact H].
Qed.

(** X8. [get_items_list] gives the names of all rows of [items], each
    as often as it is stored, in ascending order. *)
Theorem get_items_list_sorted d :
  Permutation (map item_name (items d)) (get_items_list d)
  /\ Sorted (fun a b => String.leb a b = true) (get_items_list d).
Proof.
  unfold get_items_list. split.
  - induction (map item_name (items d)) as [|x l IH]; simpl;
      [constructor|].
    eapply perm_trans; [apply perm_skip; exact IH|].
    apply insert_sorted_perm.
  - induction (map item_name (items d)) as [|x l IH]; simpl;
      [constructor|].
    apply insert_sorted_sorted. exact IH.
Qed.

(* ------------------------------------------------------------------ *)
(** * The forms one by one                                             *)
(* ------------------------------------------------------------------ *)

(** X9. A single-item receipt with an empty name, an empty unit or a
    quantity that is not positive is refused with the message of the
    fields, and neither table is written. *)
Theorem in_single_submit_refuses w name unit quantity c m s r e :
  name = "" \/ (quantity <= 0)%Q \/ unit = "" ->
  eval (in_single_submit name unit quantity c m s r e) w = ErrInFields
  /\ w_db (exec (in_single_submit name unit quantity c m s r e) w) = w_db w.
Proof.
  intros Hbad. unfold eval, exec, in_single_submit, bind.
  rewrite generate_trx_code_run.
  assert (E : PyStr.falsy name || Qleb quantity 0 || PyStr.falsy unit = true).
  { destruct Hbad as [-> | [Hq | ->]].
    - reflexivity.
    - apply Qle_bool_iff in Hq. unfold Qleb. rewrite Hq.
      rewrite orb_true_r. reflexivity.
    - simpl. apply orb_true_r. }
  rewrite E. split; reflexivity.
Qed.

Lemma in_single_submit_refuses_witness :
  ("Beras" = "" \/ (0 <= 0)%Q \/ "kg" = "")
  /\ eval (in_single_submit "Beras" "kg" 0 "" 0 "" "" "") w_AB = ErrInFields
  /\ w_db (exec (in_single_submit "Beras" "kg" 0 "" 0 "" "" "") w_AB)
     = w_db w_AB.
Proof.
  assert (H : "Beras" = "" \/ (0 <= 0)%Q \/ "kg" = "").
  { right. left. vm_compute. discriminate. }
  split; [exact H|].
  exact (in_single_submit_refuses w_AB "Beras" "kg" 0 "" 0 "" "" "" H).
Defined.

Lemma in_single_submit_sukses name unit quantity c m s r e w :
  name <> "" -> unit <> "" -> (0 < quantity)%Q ->
  eval (in_single_submit name unit quantity c m s r e) w
  = Sukses (trx_code_text "in" (next_now w) (next_randint w)).
Proof.
  intros Hn Hu Hq. unfold eval, in_single_submit. unfold bind at 1.
  rewrite generate_trx_code_run.
  apply falsy_false_iff in Hn, Hu. apply Qleb_false_iff in Hq.
  rewrite Hn, Hu, Hq. cbn [orb]. unfold bind.
  destruct (upsert_item name c unit quantity m r None _) as [id w2].
  rewrite add_transaction_record_run. reflexivity.
Qed.

(** X10. A single-item receipt with its fields filled in succeeds with
    the code generated for it; afterwards the item of the stripped name
    and the unit holds its stock of before plus the received quantity
    (the quantity alone when the item is new); exactly one movement is
    appended, of type 'in', with the typed name, the unit, the quantity,
    the identity of that item and the code as bundle code. *)
Theorem in_single_submit_receives w name unit quantity c m s r e :
  name <> "" -> unit <> "" -> (0 < quantity)%Q ->
  let w' := exec (in_single_submit name unit quantity c m s r e) w in
  let code := trx_code_text "in" (next_now w) (next_randint w) in
  eval (in_single_submit name unit quantity c m s r e) w = Sukses code
  /\ exists row t,
       select_item (PyStr.strip name) unit (w_db w') = Some row
       /\ (item_quantity row
           == stock_of (PyStr.strip name) unit (w_db w) + quantity)%Q
       /\ transactions (w_db w') = (transactions (w_db w) ++ [t])%list
       /\ trx_type t = "in" /\ trx_name t = name /\ trx_unit t = unit
       /\ trx_quantity t = quantity
       /\ trx_item_id t = Some (item_id row)
       /\ trx_bundle_code t = code.
Proof.
  intros Hn Hu Hq w' code.
  split; [apply in_single_submit_sukses; assumption|].
  destruct (in_single_submit_effect name unit quantity c m s r e w Hn Hu Hq)
    as [row [t [H1 [H2 [_ [H4 [H5 [H6 [H7 [H8 [H9 [H10 _]]]]]]]]]]]].
  exists row, t. repeat split; assumption.
Qed.

Lemma in_single_submit_receives_witness :
  "A" <> "" /\ "pcs" <> "" /\ (0 < 2)%Q
  /\ eval (in_single_submit "A" "pcs" 2 "" 0 "" "" "") w_AB
     = Sukses (trx_code_text "in" (next_now w_AB) (next_randint w_AB))
  /\ exists row t,
       select_item (PyStr.strip "A") "pcs"
         (w_db (exec (in_single_submit "A" "pcs" 2 "" 0 "" "" "") w_AB))
       = Some row
       /\ (item_quantity row
           == stock_of (PyStr.strip "A") "pcs" (w_db w_AB) + 2)%Q
       /\ transactions
            (w_db (exec (in_single_submit "A" "pcs" 2 "" 0 "" "" "") w_AB))
          = (transactions (w_db w_AB) ++ [t])%list
       /\ trx_type t = "in" /\ trx_name t = "A" /\ trx_unit t = "pcs"
       /\ trx_quantity t = 2%Q
       /\ trx_item_id t = Some (item_id row)
       /\ trx_bundle_code t
          = trx_code_text "in" (next_now w_AB) (next_randint w_AB).
Proof.
  assert (H1 : "A" <> "") by (intros H; discriminate H).
  assert (H2 : "pcs" <> "") by (intros H; discriminate H).
  assert (H3 : (0 < 2)%Q) by reflexivity.
  split; [exact H1|]. split; [exact H2|]. split; [exact H3|].
  exact (in_single_submit_receives w_AB "A" "pcs" 2 "" 0 "" "" "" H1 H2 H3).
Defined.

(** What a single-item issue that the stock covers leaves behind. *)
Lemma out_single_submit_effect w name unit quantity requester note row :
  select_item name unit (w_db w) = Some row ->
  name <> "" -> unit <> "" -> requester <> "" -> (0 < quantity)%Q ->
  (quantity <= item_quantity row)%Q ->
  let code := trx_code_text "out" (next_now w) (next_randint w) in
  out_single_submit name unit quantity requester note w
  = (Sukses code,
     mkWorld
       (insert_trx
          (fun k => mkTrx k "out" (Some (item_id row)) name quantity unit
                      (Some requester) None note
                      (w_clock w (S (w_clock_reads w))) code code None)
          (update_items (item_id row)
             (set_quantity (item_quantity row - quantity)%Q) (w_db w)))
       (w_clock w) (S (S (w_clock_reads w)))
       (w_random w) (S (w_random_reads w))).
Proof.
  intros Hsel Hn Hu Hr Hq Hle code. unfold out_single_submit.
  unfold bind at 1. rewrite generate_trx_code_run.
  apply falsy_false_iff in Hn, Hu, Hr. apply Qleb_false_iff in Hq.
  rewrite Hn, Hu, Hr, Hq. cbn [orb].
  unfold bind at 1. unfold get_db at 1. cbv iota beta. cbn [w_db].

  rewrite Hsel. pose proof Hle as Hlt. apply Qltb_false_iff in Hlt.
  rewrite Hlt. unfold bind.
  rewrite (adjust_item_for_out_ok name unit quantity _ row) by assumption.
  rewrite add_transaction_record_run. reflexivity.
Qed.

(** X11. A single-item issue with its fields filled in, for an item of
    the store whose stock covers the quantity, succeeds with the code
    generated for it; the row of the item then holds the old quantity
    minus the issued one and is otherwise as before; exactly one
    movement is appended, of type 'out', with the name, the unit, the
    quantity, the requester, the id of the item and the code as bundle
    code. *)
Theorem out_single_submit_issues w name unit quantity requester note row :
  select_item name unit (w_db w) = Some row ->
  name <> "" -> unit <> "" -> requester <> "" -> (0 < quantity)%Q ->
  (quantity <= item_quantity row)%Q ->
  let w' := exec (out_single_submit name unit quantity requester note) w in
  let code := trx_code_text "out" (next_now w) (next_randint w) in
  eval (out_single_submit name unit quantity requester note) w = Sukses code
  /\ select_item name unit (w_db w')
     = Some (set_quantity (item_quantity row - quantity)%Q row)
  /\ exists t,
       transactions (w_db w') = (transactions (w_db w) ++ [t])%list
       /\ trx_type t = "out" /\ trx_name t = name /\ trx_unit t = unit
       /\ trx_quantity t = quantity
       /\ trx_requester t = Some requester
       /\ trx_item_id t = Some (item_id row)
       /\ trx_bundle_code t = code.
Proof.
  intros Hsel Hn Hu Hr Hq Hle w' code. subst w'. unfold eval, exec.
  rewrite (out_single_submit_effect w name unit quantity requester note row)
    by assumption.
  simpl. split; [reflexivity|]. split.
  - change (select_item name unit
              (update_items (item_id row)
                 (set_quantity (item_quantity row - quantity)%Q) (w_db w))
            = Some (set_quantity (item_quantity row - quantity)%Q row)).
    rewrite select_update_items by reflexivity.
    rewrite Hsel. simpl. rewrite Z.eqb_refl. reflexivity.
  - eexists. split; [reflexivity|]. simpl. repeat split; reflexivity.
Qed.

Lemma out_single_submit_issues_witness :
  select_item "A" "pcs" (w_db w_AB) = Some row_A
  /\ "A" <> "" /\ "pcs" <> "" /\ "Budi" <> "" /\ (0 < 2)%Q
  /\ (2 <= item_quantity row_A)%Q
  /\ eval (out_single_submit "A" "pcs" 2 "Budi" "") w_AB
     = Sukses (trx_code_text "out" (next_now w_AB) (next_randint w_AB))
  /\ select_item "A" "pcs"
       (w_db (exec (out_single_submit "A" "pcs" 2 "Budi" "") w_AB))
     = Some (set_quantity (item_quantity row_A - 2)%Q row_A).
Proof.
  assert (H0 : select_item "A" "pcs" (w_db w_AB) = Some row_A)
    by (vm_compute; reflexivity).
  assert (H1 : "A" <> "") by (intros H; discriminate H).
  assert (H2 : "pcs" <> "") by (intros H; discriminate H).
  assert (H3 : "Budi" <> "") by (intros H; discriminate H).
  assert (H4 : (0 < 2)%Q) by reflexivity.
  assert (H5 : (2 <= item_quantity row_A)%Q) by (vm_compute; discriminate).
  repeat (split; [assumption|]).
  destruct (out_single_submit_issues w_AB "A" "pcs" 2 "Budi" "" row_A
              H0 H1 H2 H3 H4 H5) as [Ha [Hb _]].
  split; [exact Ha | exact Hb].
Defined.



(** ** The field checks of the batch forms *)

Lemma invalid_rows_spec {A} (bad : A -> bool) rows : forall idx n,
  In n (invalid_rows bad idx rows)
  <-> exists k it, n = S (idx + k) /\ nth_error rows k = Some it
                   /\ bad it = true.
Proof.
  induction rows as [|x rest IH]; intros idx n; simpl.
  - split; [contradiction|]. intros [k [it [_ [H _]]]].
    destruct k; discriminate H.
  - rewrite in_app_iff, IH. split.
    + intros [H | [k [it [Hn [Hk Hb]]]]].
      * destruct (bad x) eqn:E; [|contradiction].
        destruct H as [<- | []]. exists 0%nat, x.
        rewrite Nat.add_0_r. auto.
      * exists (S k), it. split; [lia | auto].
    + intros [k [it [Hn [Hk Hb]]]]. destruct k as [|k]; simpl in Hk.
      * injection Hk as ->. left. rewrite Hb. left. lia.
      * right. exists k, it. split; [lia | auto].
Qed.

Lemma invalid_rows_length {A} (bad : A -> bool) rows : forall idx,
  List.length (invalid_rows bad idx rows) = List.length (filter bad rows).
Proof.
  induction rows as [|x rest IH]; intros idx; simpl; [reflexivity|].
  rewrite length_app, IH. destruct (bad x); reflexivity.
Qed.

(** X13. A batch receipt in which some line has an empty name, an empty
    unit or a quantity that is not positive is refused as a whole: the
    world is left as it was, and the message lists the invalid lines,
    one entry per invalid line, by their position counted from 1. *)
Theorem in_multi_submit_rejects w rows supplier note :
  Exists (fun it => in_line_bad it = true) rows ->
  exec (in_multi_submit rows supplier note) w = w
  /\ exists baris,
       eval (in_multi_submit rows supplier note) w = ErrLines baris
       /\ List.length baris = List.length (filter in_line_bad rows)
       /\ forall n, In n baris
                    <-> exists k it, n = S k /\ nth_error rows k = Some it
                                     /\ in_line_bad it = true.
Proof.
  intros Hex. unfold exec, eval, in_multi_submit.
  destruct rows as [|r0 rows0]; [inversion Hex|].
  remember (r0 :: rows0) as rows eqn:Hrows. clear Hrows.
  pose proof (invalid_rows_nil in_line_bad rows 0%nat) as Hnil.
  pose proof (invalid_rows_length in_line_bad rows 0%nat) as Hlen.
  pose proof (invalid_rows_spec in_line_bad rows 0%nat) as Hspec.
  destruct (invalid_rows in_line_bad 0 rows) as [|b bs] eqn:E.
  - exfalso. destruct Hnil as [Hnil _]. specialize (Hnil eq_refl).
    apply Exists_exists in Hex. destruct Hex as [it [Hin Hbad]].
    rewrite Forall_forall in Hnil. specialize (Hnil it Hin). congruence.
  - simpl. split; [reflexivity|]. exists (b :: bs).
    split; [reflexivity|]. split; [exact Hlen|].
    intros n. rewrite Hspec. simpl. tauto.
Qed.

Lemma in_multi_submit_rejects_witness :
  Exists (fun it => in_line_bad it = true)
         [mkInLine "C" "kg" 2 "" 0 "" ""; mkInLine "D" "" 1 "" 0 "" ""]
  /\ exec (in_multi_submit
             [mkInLine "C" "kg" 2 "" 0 "" ""; mkInLine "D" "" 1 "" 0 "" ""]
             "Toko" "") w_AB = w_AB
  /\ eval (in_multi_submit
             [mkInLine "C" "kg" 2 "" 0 "" ""; mkInLine "D" "" 1 "" 0 "" ""]
             "Toko" "") w_AB = ErrLines [2%nat].
Proof.
  assert (H : Exists (fun it => in_line_bad it = true)
                [mkInLine "C" "kg" 2 "" 0 "" ""; mkInLine "D" "" 1 "" 0 "" ""]).
  { apply Exists_cons_tl. apply Exists_cons_hd. reflexivity. }
  split; [exact H|].
  destruct (in_multi_submit_rejects w_AB _ "Toko" "" H) as [Ha _].
  split; [exact Ha | reflexivity].
Defined.

(** X14. The batch issue form checks in this order: an empty batch is
    refused first, then a missing requester, then the lines with an
    empty name, an empty unit or a quantity that is not positive, listed
    by their position counted from 1; in each of these cases the world
    is left as it was and the stock is not even looked at. *)
Theorem out_multi_submit_field_checks w rows requester :
  rows = [] \/ requester = ""
  \/ Exists (fun it => out_line_bad it = true) rows ->
  exec (out_multi_submit rows requester) w = w
  /\ eval (out_multi_submit rows requester) w
     = match rows with
       | [] => ErrNoItems
       | _ => if PyStr.falsy requester then ErrRequester
              else ErrLines (invalid_rows out_line_bad 0 rows)
       end
  /\ forall n, In n (invalid_rows out_line_bad 0 rows)
               <-> exists k it, n = S k /\ nth_error rows k = Some it
                                /\ out_line_bad it = true.
Proof.
  intros H.
  assert (Hspec : forall n, In n (invalid_rows out_line_bad 0 rows)
               <-> exists k it, n = S k /\ nth_error rows k = Some it
                                /\ out_line_bad it = true).
  { intros n. rewrite invalid_rows_spec. simpl. tauto. }
  unfold exec, eval, out_multi_submit.
  destruct rows as [|r0 rows0]; [simpl; auto|].
  remember (r0 :: rows0) as rows eqn:Hrows.
  destruct (PyStr.falsy requester) eqn:Ereq.
  - subst rows. simpl. auto.
  - destruct H as [H | [H | H]].
    + subst rows. discriminate H.
    + subst requester. discriminate Ereq.
    + pose proof (invalid_rows_nil out_line_bad rows 0%nat) as Hnil.
      destruct (invalid_rows out_line_bad 0 rows) as [|b bs] eqn:E.
      * exfalso. destruct Hnil as [Hnil _]. specialize (Hnil eq_refl).
        apply Exists_exists in H. destruct H as [it [Hin Hbad]].
        rewrite Forall_forall in Hnil. specialize (Hnil it Hin). congruence.
      * subst rows. simpl. auto.
Qed.

Lemma out_multi_submit_field_checks_witness :
  (batch_A3_B10 = [] \/ "" = ""
   \/ Exists (fun it => out_line_bad it = true) batch_A3_B10)
  /\ exec (out_multi_submit batch_A3_B10 "") w_AB = w_AB
  /\ eval (out_multi_submit batch_A3_B10 "") w_AB = ErrRequester.
Proof.
  assert (H : batch_A3_B10 = [] \/ "" = ""
              \/ Exists (fun it => out_line_bad it = true) batch_A3_B10).
  { right. left. reflexivity. }
  split; [exact H|].
  destruct (out_multi_submit_field_checks w_AB batch_A3_B10 "" H)
    as [Ha [Hb _]].
  split; [exact Ha | exact Hb].
Defined.

(** ** The loops of the batch forms *)

Lemma in_multi_loop_log supplier note code rows : forall w,
  exists ts,
    transactions
      (w_db (snd (for_each rows (fun it =>
         item_id <- upsert_item (il_name it) (il_category it) (il_unit it)
                      (il_quantity it) (il_min_stock it)
                      (il_rack_location it)
                      (Some (ExpText (il_expiry_date it))) ;;
         add_transaction_record "in" (Some item_id) (il_name it)
           (il_quantity it) (il_unit it) None (Some supplier) note
           code code None) w)))
    = (transactions (w_db w) ++ ts)%list
    /\ Forall2 (in_line_movement supplier note code) rows ts.
Proof.
  induction rows as [|it rest IH]; intros w.
  - exists []. simpl. rewrite app_nil_r. split; [reflexivity | constructor].
  - cbn [for_each]. unfold bind at 1. unfold bind at 1.
    destruct (upsert_item_log (il_name it) (il_category it) (il_unit it)
                (il_quantity it) (il_min_stock it) (il_rack_location it)
                (Some (ExpText (il_expiry_date it))) w) as [Hlog _].
    destruct (upsert_item (il_name it) (il_category it) (il_unit it)
                (il_quantity it) (il_min_stock it) (il_rack_location it)
                (Some (ExpText (il_expiry_date it))) w) as [id w1].
    simpl in Hlog. rewrite add_transaction_record_run.
    match goal with
    | |- context [for_each rest _ ?W] => destruct (IH W) as [ts [Hts Hall]]
    end.
    eexists (_ :: ts). split.
    + rewrite Hts. simpl. rewrite Hlog, <- app_assoc. reflexivity.
    + constructor; [|exact Hall].
      unfold in_line_movement. simpl.
      repeat split; try reflexivity. discriminate.
Qed.

Lemma code_then_loop {A} ty (loop : string -> M A) w :
  (trx_code <- generate_trx_code ty ;; loop trx_code ;;;
   ret (Sukses trx_code)) w
  = (Sukses (trx_code_text ty (next_now w) (next_randint w)),
     snd (loop (trx_code_text ty (next_now w) (next_randint w))
            (mkWorld (w_db w) (w_clock w) (S (w_clock_reads w))
                     (w_random w) (S (w_random_reads w))))).
Proof.
  unfold bind. rewrite generate_trx_code_run.
  destruct (loop _ _) as [a w2]. reflexivity.
Qed.

Lemma in_multi_submit_valid rows supplier note w :
  rows <> [] ->
  Forall (fun it => in_line_bad it = false) rows ->
  in_multi_submit rows supplier note w
  = (trx_code <- generate_trx_code "in" ;;
     for_each rows (fun it =>
       item_id <- upsert_item (il_name it) (il_category it) (il_unit it)
                    (il_quantity it) (il_min_stock it)
                    (il_rack_location it)
                    (Some (ExpText (il_expiry_date it))) ;;
       add_transaction_record "in" (Some item_id) (il_name it)
         (il_quantity it) (il_unit it) None (Some supplier) note
         trx_code trx_code None) ;;;
     ret (Sukses trx_code)) w.
Proof.
  intros Hrows Hbad. unfold in_multi_submit.
  destruct rows as [|r0 rows0]; [congruence|].
  apply (invalid_rows_nil in_line_bad (r0 :: rows0) 0%nat) in Hbad.
  rewrite Hbad. reflexivity.
Qed.

(** X15. A batch receipt with at least one line, all with a name, a unit
    and a positive quantity, succeeds with one code; it appends exactly
    one movement per line, in the order of the lines, each of type 'in'
    with the name, unit and quantity of its line, the supplier and the
    note of the form, the code as transaction and as bundle code, and
    an item reference. *)
Theorem in_multi_submit_records w rows supplier note :
  rows <> [] ->
  Forall (fun it => in_line_bad it = false) rows ->
  let code := trx_code_text "in" (next_now w) (next_randint w) in
  eval (in_multi_submit rows supplier note) w = Sukses code
  /\ exists ts,
       transactions (w_db (exec (in_multi_submit rows supplier note) w))
       = (transactions (w_db w) ++ ts)%list
       /\ Forall2 (in_line_movement supplier note code) rows ts.
Proof.
  intros Hrows Hbad code. unfold eval, exec.
  rewrite (in_multi_submit_valid rows supplier note w Hrows Hbad).
  rewrite code_then_loop. fold code. cbv beta. simpl fst. simpl snd.
  split; [reflexivity|].
  match goal with
  | |- context [for_each rows _ ?W] =>
      destruct (in_multi_loop_log supplier note code rows W) as [ts [Hts Hall]]
  end.
  exists ts. split; [exact Hts | exact Hall].
Qed.

Lemma in_multi_submit_records_witness :
  [mkInLine "C" "kg" 2 "" 0 "" ""; mkInLine "A" "pcs" 1 "" 0 "" ""] <> []
  /\ Forall (fun it => in_line_bad it = false)
       [mkInLine "C" "kg" 2 "" 0 "" ""; mkInLine "A" "pcs" 1 "" 0 "" ""]
  /\ eval (in_multi_submit
             [mkInLine "C" "kg" 2 "" 0 "" ""; mkInLine "A" "pcs" 1 "" 0 "" ""]
             "Toko" "") w_AB
     = Sukses (trx_code_text "in" (next_now w_AB) (next_randint w_AB))
  /\ exists ts,
       transactions
         (w_db (exec (in_multi_submit
                        [mkInLine "C" "kg" 2 "" 0 "" "";
                         mkInLine "A" "pcs" 1 "" 0 "" ""] "Toko" "") w_AB))
       = (transactions (w_db w_AB) ++ ts)%list
       /\ Forall2 (in_line_movement "Toko" ""
                     (trx_code_text "in" (next_now w_AB) (next_randint w_AB)))
            [mkInLine "C" "kg" 2 "" 0 "" ""; mkInLine "A" "pcs" 1 "" 0 "" ""]
            ts.
Proof.
  assert (H1 : [mkInLine "C" "kg" 2 "" 0 "" "";
                mkInLine "A" "pcs" 1 "" 0 "" ""] <> [])
    by (intros H; discriminate H).
  assert (H2 : Forall (fun it => in_line_bad it = false)
                 [mkInLine "C" "kg" 2 "" 0 "" "";
                  mkInLine "A" "pcs" 1 "" 0 "" ""])
    by (repeat constructor).
  split; [exact H1|]. split; [exact H2|].
  exact (in_multi_submit_records w_AB _ "Toko" "" H1 H2).
Defined.

Lemma out_multi_loop_log requester code rows : forall w,
  exists ts,
    transactions
      (w_db (snd (for_each rows (fun it =>
         r <- adjust_item_for_out (ol_name it) (ol_unit it)
                (ol_quantity it) ;;
         add_transaction_record "out" (fst r) (ol_name it) (ol_quantity it)
           (ol_unit it) (Some requester) None (ol_note it) code code None)
         w)))
    = (transactions (w_db w) ++ ts)%list
    /\ Forall2 (out_line_movement requester code) rows ts.
Proof.
  induction rows as [|it rest IH]; intros w.
  - exists []. simpl. rewrite app_nil_r. split; [reflexivity | constructor].
  - cbn [for_each]. unfold bind at 1. unfold bind at 1.
    destruct (adjust_item_for_out_log (ol_name it) (ol_unit it)
                (ol_quantity it) w) as [Hlog _].
    destruct (adjust_item_for_out (ol_name it) (ol_unit it) (ol_quantity it)
                w) as [res w1].
    simpl in Hlog. rewrite add_transaction_record_run.
    match goal with
    | |- context [for_each rest _ ?W] => destruct (IH W) as [ts [Hts Hall]]
    end.
    eexists (_ :: ts). split.
    + rewrite Hts. simpl. rewrite Hlog, <- app_assoc. reflexivity.
    + constructor; [|exact Hall].
      unfold out_line_movement. simpl. repeat split; reflexivity.
Qed.

(** X16. A batch issue that passes the field checks and the stock check
    succeeds with one code and appends exactly one movement per line,
    in the order of the lines, each of type 'out' with the name, unit,
    quantity and note of its line, the requester of the form and the
    code as transaction and as bundle code. *)
Theorem out_multi_submit_records w rows requester :
  rows <> [] -> requester <> "" ->
  Forall (fun it => out_line_bad it = false) rows ->
  Forall (line_covered (w_db w)) rows ->
  let code := trx_code_text "out" (next_now w) (next_randint w) in
  eval (out_multi_submit rows requester) w = Sukses code
  /\ exists ts,
       transactions (w_db (exec (out_multi_submit rows requester) w))
       = (transactions (w_db w) ++ ts)%list
       /\ Forall2 (out_line_movement requester code) rows ts.
Proof.
  intros Hrows Hreq Hbad Hcov code. unfold eval, exec.
  rewrite (out_multi_submit_checked rows requester w Hrows Hreq Hbad).
  assert (Hnil : check_stock (w_db w) rows = []).
  { apply check_stock_nil. eapply Forall_impl; [|exact Hcov].
    intros it. apply line_failsb_false_iff. }
  rewrite Hnil.
  rewrite code_then_loop. fold code. cbv beta. simpl fst. simpl snd.
  split; [reflexivity|].
  match goal with
  | |- context [for_each rows _ ?W] =>
      destruct (out_multi_loop_log requester code rows W) as [ts [Hts Hall]]
  end.
  exists ts. split; [exact Hts | exact Hall].
Qed.

Lemma out_multi_submit_records_witness :
  batch_A3_A4 <> [] /\ "Budi" <> ""
  /\ Forall (fun it => out_line_bad it = false) batch_A3_A4
  /\ Forall (line_covered (w_db w_AB)) batch_A3_A4
  /\ eval (out_multi_submit batch_A3_A4 "Budi") w_AB
     = Sukses (trx_code_text "out" (next_now w_AB) (next_randint w_AB))
  /\ exists ts,
       transactions (w_db (exec (out_multi_submit batch_A3_A4 "Budi") w_AB))
       = (transactions (w_db w_AB) ++ ts)%list
       /\ Forall2 (out_line_movement "Budi"
                     (trx_code_text "out" (next_now w_AB) (next_randint w_AB)))
            batch_A3_A4 ts.
Proof.
  assert (H1 : batch_A3_A4 <> []) by (intros H; discriminate H).
  assert (H2 : "Budi" <> "") by (intros H; discriminate H).
  assert (H3 : Forall (fun it => out_line_bad it = false) batch_A3_A4)
    by (repeat constructor).
  assert (H4 : Forall (line_covered (w_db w_AB)) batch_A3_A4).
  { repeat constructor; apply line_failsb_false_iff; vm_compute;
      reflexivity. }
  split; [exact H1|]. split; [exact H2|]. split; [exact H3|].
  split; [exact H4|].
  exact (out_multi_submit_records w_AB batch_A3_A4 "Budi" H1 H2 H3 H4).
Defined.

(** ** How stock adds up *)

Lemma key_eqb_neq a b : key_eqb a b = false <-> a <> b.
Proof.
  split.
  - intros H Heq. apply key_eqb_eq in Heq. congruence.
  - intros H. destruct (key_eqb a b) eqn:E; [|reflexivity].
    apply key_eqb_eq in E. contradiction.
Qed.

Lemma w_db_set_db d w : w_db (set_db d w) = d.
Proof. reflexivity. Qed.

(** One [upsert_item] adds its quantity to the stock of its key and
    leaves the stock of every other key as it was. *)
Lemma upsert_item_stock name category unit quantity min_stock rack expiry
    w name' unit' :
  store_wf (w_db w) ->
  (stock_of name' unit'
     (w_db (snd (upsert_item name category unit quantity min_stock rack
                   expiry w)))
   == stock_of name' unit' (w_db w)
      + (if key_eqb (PyStr.strip name, unit) (name', unit')
         then quantity else 0))%Q.
Proof.
  intros [[Hnd _] _].
  destruct (key_eqb (PyStr.strip name, unit) (name', unit')) eqn:Ek.
  - apply key_eqb_eq in Ek. injection Ek as <- <-.
    destruct (upsert_item_effect name category unit quantity min_stock rack
                expiry w) as [row' [Hsel [_ [Hq _]]]].
    unfold stock_of at 1. rewrite Hsel. exact Hq.
  - apply key_eqb_neq in Ek.
    assert (Hne : (name', unit') <> (PyStr.strip name, unit)) by congruence.
    unfold stock_of.
    destruct (select_item (PyStr.strip name) unit (w_db w)) as [row|] eqn:E.
    + rewrite (upsert_item_found _ _ _ _ _ _ _ _ _ E).
      cbn [snd]. rewrite w_db_set_db.
      rewrite (select_update_other (PyStr.strip name) unit name' unit')
        by (auto; reflexivity).
      ring.
    + rewrite (upsert_item_new _ _ _ _ _ _ _ _ E).
      cbn [snd]. rewrite w_db_set_db.
      rewrite (select_insert_other (PyStr.strip name) unit name' unit')
        by (auto; reflexivity).
      ring.
Qed.

Lemma add_transaction_record_stock ty id n q u rq sp note b c e w name' unit' :
  stock_of name' unit'
    (w_db (snd (add_transaction_record ty id n q u rq sp note b c e w)))
  = stock_of name' unit' (w_db w).
Proof. reflexivity. Qed.

Lemma in_multi_loop_stock supplier note code name' unit' rows : forall w,
  store_wf (w_db w) ->
  (stock_of name' unit'
     (w_db (snd (for_each rows (fun it =>
        item_id <- upsert_item (il_name it) (il_category it) (il_unit it)
                     (il_quantity it) (il_min_stock it)
                     (il_rack_location it)
                     (Some (ExpText (il_expiry_date it))) ;;
        add_transaction_record "in" (Some item_id) (il_name it)
          (il_quantity it) (il_unit it) None (Some supplier) note
          code code None) w)))
   == stock_of name' unit' (w_db w) + received_total name' unit' rows)%Q.
Proof.
  unfold received_total.
  induction rows as [|it rest IH]; intros w Hwf.
  - simpl. ring.
  - cbn [for_each]. unfold bind at 1. unfold bind at 1.
    pose proof (upsert_item_stock (il_name it) (il_category it) (il_unit it)
                  (il_quantity it) (il_min_stock it) (il_rack_location it)
                  (Some (ExpText (il_expiry_date it))) w name' unit' Hwf)
      as Hstock.
    pose proof (upsert_item_store_wf (il_name it) (il_category it)
                  (il_unit it) (il_quantity it) (il_min_stock it)
                  (il_rack_location it)
                  (Some (ExpText (il_expiry_date it))) w Hwf) as Hwf1.
    destruct (upsert_item (il_name it) (il_category it) (il_unit it)
                (il_quantity it) (il_min_stock it) (il_rack_location it)
                (Some (ExpText (il_expiry_date it))) w) as [id w1].
    simpl in Hstock, Hwf1. rewrite add_transaction_record_run.
    match goal with
    | |- context [for_each rest _ ?W] =>
        assert (HwfW : store_wf (w_db W)) by exact Hwf1;
        rewrite (IH W HwfW);
        change (stock_of name' unit' (w_db W))
          with (stock_of name' unit' (w_db w1))
    end.
    rewrite Hstock. simpl filter.
    destruct (key_eqb (PyStr.strip (il_name it), il_unit it) (name', unit'));
      simpl; ring.
Qed.

(** X17. A batch receipt that is accepted, on a well-formed store, adds
    to the stock of every (name, unit) the sum of the quantities of the
    lines booked under it, that is, of the lines with that stripped
    name and that unit; the stock of an item that no line names is as
    before. *)
Theorem in_multi_submit_accumulates w rows supplier note name unit :
  store_wf (w_db w) ->
  rows <> [] ->
  Forall (fun it => in_line_bad it = false) rows ->
  (stock_of name unit (w_db (exec (in_multi_submit rows supplier note) w))
   == stock_of name unit (w_db w) + received_total name unit rows)%Q.
Proof.
  intros Hwf Hrows Hbad. unfold exec.
  rewrite (in_multi_submit_valid rows supplier note w Hrows Hbad).
  rewrite code_then_loop. cbv beta. simpl snd.
  match goal with
  | |- context [for_each rows _ ?W] =>
      assert (HwfW : store_wf (w_db W)) by exact Hwf;
      rewrite (in_multi_loop_stock supplier note _ name unit rows W HwfW)
  end.
  reflexivity.
Qed.

Lemma in_multi_submit_accumulates_witness :
  store_wf (w_db w_AB)
  /\ [mkInLine " A" "pcs" 2 "" 0 "" ""; mkInLine "A " "pcs" 1 "" 0 "" ""] <> []
  /\ Forall (fun it => in_line_bad it = false)
       [mkInLine " A" "pcs" 2 "" 0 "" ""; mkInLine "A " "pcs" 1 "" 0 "" ""]
  /\ (stock_of "A" "pcs"
        (w_db (exec (in_multi_submit
                       [mkInLine " A" "pcs" 2 "" 0 "" "";
                        mkInLine "A " "pcs" 1 "" 0 "" ""] "Toko" "") w_AB))
      == stock_of "A" "pcs" (w_db w_AB)
         + received_total "A" "pcs"
             [mkInLine " A" "pcs" 2 "" 0 "" "";
              mkInLine "A " "pcs" 1 "" 0 "" ""])%Q.
Proof.
  assert (H0 : store_wf (w_db w_AB))
    by exact (reachable_store_wf w_AB reachable_store_w_AB).
  assert (H1 : [mkInLine " A" "pcs" 2 "" 0 "" "";
                mkInLine "A " "pcs" 1 "" 0 "" ""] <> [])
    by (intros H; discriminate H).
  assert (H2 : Forall (fun it => in_line_bad it = false)
                 [mkInLine " A" "pcs" 2 "" 0 "" "";
                  mkInLine "A " "pcs" 1 "" 0 "" ""])
    by (repeat constructor).
  split; [exact H0|]. split; [exact H1|]. split; [exact H2|].
  exact (in_multi_submit_accumulates w_AB _ "Toko" "" "A" "pcs" H0 H1 H2).
Defined.




(** X19. A sheet that lacks one of the columns name, quantity and unit
    (whatever the case of the letters in its headers) makes the import
    raise [ValueError] before any row is read: nothing is written. *)
Theorem import_missing_column df w :
  required_columns df = false ->
  load_inventory_from_excel df w
  = (Raise (ValueError "Excel harus memiliki kolom: name, quantity, unit"), w).
Proof.
  intros H. unfold load_inventory_from_excel.
  rewrite required_columns_forallb, H. reflexivity.
Qed.

Lemma import_missing_column_witness :
  required_columns (mkSheet ["Name"; "Qty"; "Unit"] (sh_rows sheet_three))
  = false
  /\ load_inventory_from_excel
       (mkSheet ["Name"; "Qty"; "Unit"] (sh_rows sheet_three)) w_AB
     = (Raise (ValueError "Excel harus memiliki kolom: name, quantity, unit"),
        w_AB).
Proof.
  assert (H : required_columns
                (mkSheet ["Name"; "Qty"; "Unit"] (sh_rows sheet_three))
              = false) by (vm_compute; reflexivity).
  split; [exact H|].
  exact (import_missing_column _ w_AB H).
Defined.

(** ** A batch issue on different items *)

Lemma adjust_item_for_out_stock name unit quantity w row name' unit' :
  NoDup (map item_id (items (w_db w))) ->
  select_item name unit (w_db w) = Some row ->
  (quantity <= item_quantity row)%Q ->
  let w' := snd (adjust_item_for_out name unit quantity w) in
  NoDup (map item_id (items (w_db w')))
  /\ (stock_of name' unit' (w_db w')
      == stock_of name' unit' (w_db w)
         - (if key_eqb (name, unit) (name', unit') then quantity else 0))%Q
  /\ ((name', unit') <> (name, unit) ->
      select_item name' unit' (w_db w') = select_item name' unit' (w_db w)).
Proof.
  intros Hnd Hsel Hle w'. subst w'.
  rewrite (adjust_item_for_out_ok _ _ _ _ _ Hsel Hle).
  cbn [snd]. rewrite w_db_set_db. split; [|split].
  - unfold update_items. simpl.
    rewrite map_update_stable by reflexivity. exact Hnd.
  - unfold stock_of.
    destruct (key_eqb (name, unit) (name', unit')) eqn:Ek.
    + apply key_eqb_eq in Ek. injection Ek as <- <-.
      rewrite select_update_items by reflexivity.
      rewrite Hsel. simpl. rewrite Z.eqb_refl. simpl. ring.
    + apply key_eqb_neq in Ek.
      rewrite (select_update_other name unit name' unit')
        by (auto; congruence).
      ring.
  - intros Hne. apply (select_update_other name unit); auto.
Qed.

Lemma out_multi_loop_stock requester code name' unit' rows : forall w,
  NoDup (map item_id (items (w_db w))) ->
  NoDup (map (fun it => (ol_name it, ol_unit it)) rows) ->
  Forall (line_covered (w_db w)) rows ->
  (stock_of name' unit'
     (w_db (snd (for_each rows (fun it =>
        r <- adjust_item_for_out (ol_name it) (ol_unit it)
               (ol_quantity it) ;;
        add_transaction_record "out" (fst r) (ol_name it) (ol_quantity it)
          (ol_unit it) (Some requester) None (ol_note it) code code None)
        w)))
   == stock_of name' unit' (w_db w) - issued_total name' unit' rows)%Q.
Proof.
  unfold issued_total.
  induction rows as [|it rest IH]; intros w Hnd Hkeys Hcov.
  - simpl. ring.
  - cbn [for_each]. unfold bind at 1. unfold bind at 1.
    inversion Hcov as [|? ? [row [Hsel Hle]] Hcov']; subst.
    inversion Hkeys as [|? ? Hnotin Hkeys']; subst.
    destruct (adjust_item_for_out_stock (ol_name it) (ol_unit it)
                (ol_quantity it) w row name' unit' Hnd Hsel Hle)
      as [Hnd1 [Hstock _]].
    assert (Hcov1 : Forall (line_covered
                      (w_db (snd (adjust_item_for_out (ol_name it)
                                    (ol_unit it) (ol_quantity it) w)))) rest).
    { apply Forall_forall. intros it' Hin.
      rewrite Forall_forall in Hcov'. destruct (Hcov' it' Hin)
        as [row' [Hsel' Hle']].
      exists row'. split; [|exact Hle'].
      destruct (adjust_item_for_out_stock (ol_name it) (ol_unit it)
                  (ol_quantity it) w row (ol_name it') (ol_unit it')
                  Hnd Hsel Hle) as [_ [_ Hother]].
      rewrite Hother; [exact Hsel'|].
      intros Heq. apply Hnotin. rewrite <- Heq.
      apply (in_map (fun it0 => (ol_name it0, ol_unit it0))). exact Hin. }
    destruct (adjust_item_for_out (ol_name it) (ol_unit it) (ol_quantity it)
                w) as [res w1].
    simpl in Hnd1, Hstock, Hcov1. rewrite add_transaction_record_run.
    match goal with
    | |- context [for_each rest _ ?W] =>
        assert (HndW : NoDup (map item_id (items (w_db W)))) by exact Hnd1;
        assert (HcovW : Forall (line_covered (w_db W)) rest) by exact Hcov1;
        rewrite (IH W HndW Hkeys' HcovW);
        change (stock_of name' unit' (w_db W))
          with (stock_of name' unit' (w_db w1))
    end.
    rewrite Hstock. simpl filter.
    destruct (key_eqb (ol_name it, ol_unit it) (name', unit'));
      simpl; ring.
Qed.

Lemma filter_none {A} (p : A -> bool) l :
  (forall y, In y l -> p y = false) -> filter p l = [].
Proof.
  induction l as [|x l IH]; intros H; simpl; [reflexivity|].
  rewrite (H x (or_introl eq_refl)). apply IH.
  intros y Hy. apply H. right. exact Hy.
Qed.

Lemma issued_total_single name unit rows it :
  NoDup (map (fun it0 => (ol_name it0, ol_unit it0)) rows) ->
  In it rows -> (ol_name it, ol_unit it) = (name, unit) ->
  (issued_total name unit rows == ol_quantity it)%Q.
Proof.
  unfold issued_total. intros Hnd Hin Hk.
  induction rows as [|x rest IH]; [contradiction|].
  inversion Hnd as [|? ? Hnotin Hnd']; subst. simpl.
  destruct Hin as [-> | Hin].
  - rewrite Hk. rewrite (proj2 (key_eqb_eq _ _) eq_refl). simpl.
    assert (Hz : filter (fun it0 => key_eqb (ol_name it0, ol_unit it0)
                                      (name, unit)) rest = []).
    { apply filter_none. intros y Hy.
      apply key_eqb_neq. intros Heq. apply Hnotin. rewrite Hk, <- Heq.
      apply (in_map (fun it0 => (ol_name it0, ol_unit it0))). exact Hy. }
    rewrite Hz. simpl. ring.
  - destruct (key_eqb (ol_name x, ol_unit x) (name, unit)) eqn:E.
    + exfalso. apply key_eqb_eq in E. apply Hnotin. rewrite E, <- Hk.
      apply (in_map (fun it0 => (ol_name it0, ol_unit it0))). exact Hin.
    + apply IH; assumption.
Qed.

(** X20. A batch issue whose lines are all on different (name, unit)
    pairs, each covered by the stock of before, on a store with
    distinct ids: the batch is accepted and every line is deducted, so
    the stock of each line's item is its stock of before minus the
    quantity of the line, and the stock of every item that no line
    names is as before. *)
Theorem out_multi_submit_deducts w rows requester :
  NoDup (map item_id (items (w_db w))) ->
  rows <> [] -> requester <> "" ->
  Forall (fun it => out_line_bad it = false) rows ->
  Forall (line_covered (w_db w)) rows ->
  NoDup (map (fun it => (ol_name it, ol_unit it)) rows) ->
  let w' := exec (out_multi_submit rows requester) w in
  (forall it, In it rows ->
     (stock_of (ol_name it) (ol_unit it) (w_db w')
      == stock_of (ol_name it) (ol_unit it) (w_db w) - ol_quantity it)%Q)
  /\ (forall name unit,
        ~ In (name, unit) (map (fun it => (ol_name it, ol_unit it)) rows) ->
        (stock_of name unit (w_db w') == stock_of name unit (w_db w))%Q).
Proof.
  intros Hnd Hrows Hreq Hbad Hcov Hkeys w'.
  assert (Hall : forall name unit,
            (stock_of name unit (w_db w')
             == stock_of name unit (w_db w) - issued_total name unit rows)%Q).
  { intros name unit. subst w'. unfold exec.
    rewrite (out_multi_submit_checked rows requester w Hrows Hreq Hbad).
    assert (Hnil : check_stock (w_db w) rows = []).
    { apply check_stock_nil. eapply Forall_impl; [|exact Hcov].
      intros it. apply line_failsb_false_iff. }
    rewrite Hnil. rewrite code_then_loop. cbv beta. simpl snd.
    match goal with
    | |- context [for_each rows _ ?W] =>
        assert (HndW : NoDup (map item_id (items (w_db W)))) by exact Hnd;
        assert (HcovW : Forall (line_covered (w_db W)) rows) by exact Hcov;
        rewrite (out_multi_loop_stock requester _ name unit rows W HndW
                   Hkeys HcovW)
    end.
    reflexivity. }
  split.
  - intros it Hin. rewrite Hall.
    rewrite (issued_total_single (ol_name it) (ol_unit it) rows it Hkeys Hin
               eq_refl).
    reflexivity.
  - intros name unit Hnotin. rewrite Hall. unfold issued_total.
    rewrite filter_none; [simpl; ring|].
    intros y Hy. apply key_eqb_neq. intros Heq. apply Hnotin.
    rewrite <- Heq.
    apply (in_map (fun it0 => (ol_name it0, ol_unit it0))). exact Hy.
Qed.

Lemma out_multi_submit_deducts_witness :
  NoDup (map item_id (items (w_db w_AB)))
  /\ batch_A3_B5 <> [] /\ "Budi" <> ""
  /\ Forall (fun it => out_line_bad it = false) batch_A3_B5
  /\ Forall (line_covered (w_db w_AB)) batch_A3_B5
  /\ NoDup (map (fun it => (ol_name it, ol_unit it)) batch_A3_B5)
  /\ (forall it, In it batch_A3_B5 ->
        (stock_of (ol_name it) (ol_unit it)
           (w_db (exec (out_multi_submit batch_A3_B5 "Budi") w_AB))
         == stock_of (ol_name it) (ol_unit it) (w_db w_AB)
            - ol_quantity it)%Q)
  /\ (forall name unit,
        ~ In (name, unit)
             (map (fun it => (ol_name it, ol_unit it)) batch_A3_B5) ->
        (stock_of name unit
           (w_db (exec (out_multi_submit batch_A3_B5 "Budi") w_AB))
         == stock_of name unit (w_db w_AB))%Q).
Proof.
  assert (H0 : NoDup (map item_id (items (w_db w_AB)))).
  { vm_compute. repeat constructor; simpl; intuition discriminate. }
  assert (H1 : batch_A3_B5 <> []) by (intros H; discriminate H).
  assert (H2 : "Budi" <> "") by (intros H; discriminate H).
  assert (H3 : Forall (fun it => out_line_bad it = false) batch_A3_B5)
    by (repeat constructor).
  assert (H4 : Forall (line_covered (w_db w_AB)) batch_A3_B5).
  { repeat constructor; apply line_failsb_false_iff; vm_compute;
      reflexivity. }
  assert (H5 : NoDup (map (fun it => (ol_name it, ol_unit it)) batch_A3_B5)).
  { vm_compute. repeat constructor; simpl; intuition discriminate. }
  repeat (split; [assumption|]).
  exact (out_multi_submit_deducts w_AB batch_A3_B5 "Budi" H0 H1 H2 H3 H4 H5).
Defined.

(** ** Transaction codes, once more *)

(** X21. Two codes generated for the same type of movement are equal
    exactly when the two calls met the same formatted second and drew
    the same random number, which is always between 100 and 999; and a
    code of a receipt is never the code of an issue. *)
Theorem generate_trx_code_collisions ty w1 w2 :
  (eval (generate_trx_code ty) w1 = eval (generate_trx_code ty) w2
   <-> strftime_code (next_now w1) = strftime_code (next_now w2)
       /\ next_randint w1 = next_randint w2)
  /\ 100 <= next_randint w1 <= 999
  /\ eval (generate_trx_code "in") w1 <> eval (generate_trx_code "out") w2.
Proof.
  unfold eval. rewrite !generate_trx_code_run. simpl fst.
  split; [|split].
  - apply trx_code_text_inj; apply next_randint_range.
  - apply next_randint_range.
  - unfold trx_code_text. simpl. intros H. discriminate H.
Qed.

(* ------------------------------------------------------------------ *)
(** * Users and login                                                  *)
(* ------------------------------------------------------------------ *)



Lemma select_user_none_iff username users :
  select_user username users = None <-> ~ In username (map fst users).
Proof.
  unfold select_user. split.
  - intros H Hin. apply in_map_iff in Hin. destruct Hin as [row [Hf Hin]].
    destruct (find (fun r => String.eqb (fst r) username) users) eqn:E;
      [discriminate H|].
    pose proof (find_none _ _ E row Hin) as Hn. simpl in Hn.
    rewrite Hf, String.eqb_refl in Hn. discriminate Hn.
  - intros Hnin.
    destruct (find (fun r => String.eqb (fst r) username) users) as [row|]
      eqn:E; [|reflexivity].
    exfalso. apply Hnin. apply find_some in E. destruct E as [Hin Heq].
    apply String.eqb_eq in Heq. rewrite <- Heq. apply in_map. exact Hin.
Qed.



(** X23. [ensure_default_admin] writes only to an empty table, where it
    adds the user admin with the password admin123; after it the table
    is never empty, a second call changes nothing, and on a table that
    was empty the default login is accepted. [verify_login] refuses
    every username that is not in the table and accepts a stored user
    exactly with a password whose digest is the stored one. *)
Theorem default_admin_and_login sha users :
  ensure_default_admin sha users <> []
  /\ ensure_default_admin sha (ensure_default_admin sha users)
     = ensure_default_admin sha users
  /\ (users <> [] -> ensure_default_admin sha users = users)
  /\ verify_login sha (ensure_default_admin sha []) "admin" "admin123" = true
  /\ (forall username password,
        ~ In username (map fst users) ->
        verify_login sha users username password = false)
  /\ (forall username password stored,
        select_user username users = Some stored ->
        (verify_login sha users username password = true
         <-> sha password = stored)).
Proof.
  split; [|split; [|split; [|split; [|split]]]].
  - unfold ensure_default_admin. destruct users; simpl; intros H;
      discriminate H.
  - unfold ensure_default_admin. destruct users; reflexivity.
  - unfold ensure_default_admin. destruct users; [congruence | reflexivity].
  - unfold verify_login, ensure_default_admin, hash_pw. simpl.
    apply String.eqb_refl.
  - intros username password Hnin. unfold verify_login.
    apply select_user_none_iff in Hnin. rewrite Hnin. reflexivity.
  - intros username password stored Hsel. unfold verify_login, hash_pw.
    rewrite Hsel. rewrite String.eqb_eq. split; congruence.
Qed.

(* ------------------------------------------------------------------ *)
(** * Summaries per week and per month                                 *)
(* ------------------------------------------------------------------ *)

Example week_labels :
  map week_label [mkDate 2024 1 1; mkDate 2023 1 1; mkDate 2023 1 2;
                  mkDate 2024 12 31; mkDate 2021 3 14; mkDate 2020 2 29;
                  mkDate 2019 12 30; mkDate 2000 1 1]
  = ["2024-01"; "2023-00"; "2023-01"; "2024-53"; "2021-10"; "2020-08";
     "2019-52"; "2000-00"].
Proof. vm_compute. reflexivity. Qed.

Section GroupKeys.
Context {K : Type} (eqb : K -> K -> bool).
Hypothesis eqb_eq : forall a b, eqb a b = true <-> a = b.





End GroupKeys.





(** The summary of the log with 10 in January and 15 in February, per
    month and per week; any other period gives an empty frame. *)
Example summary_by_period_jan_feb :
  summary_by_period df_jan_feb "M"
  = [(("2024-01", ("Beras", ("kg", "out"))), 10%Q);
     (("2024-02", ("Beras", ("kg", "out"))), 15%Q)]
  /\ map fst (summary_by_period df_jan_feb "W")
     = [("2024-02", ("Beras", ("kg", "out")));
        ("2024-07", ("Beras", ("kg", "out")))]
  /\ summary_by_period df_jan_feb "D" = [].
Proof. vm_compute. repeat split. Qed.

(* ------------------------------------------------------------------ *)
(** * References from the log to the store                             *)
(* ------------------------------------------------------------------ *)

Lemma hoare_ret {A} (P : World -> Prop) (a : A) (Q : A -> World -> Prop) :
  (forall w, P w -> Q a w) -> hoare P (ret a) Q.
Proof. intros H w Hw. apply H. exact Hw. Qed.

Lemma hoare_bind {A B} P (m : M A) (k : A -> M B) Q R :
  hoare P m Q -> (forall a, hoare (Q a) (k a) R) -> hoare P (bind m k) R.
Proof.
  intros Hm Hk w Hw. unfold bind. specialize (Hm w Hw).
  destruct (m w) as [a w1]. simpl in Hm. apply (Hk a w1 Hm).
Qed.

Lemma hoare_for_each {A} (I : World -> Prop) (body : A -> M Datatypes.unit)
    xs :
  (forall x, hoare I (body x) (fun _ => I)) ->
  hoare I (for_each xs body) (fun _ => I).
Proof.
  intros Hb. induction xs as [|x xs IH]; simpl.
  - apply hoare_ret. auto.
  - eapply hoare_bind; [apply Hb|]. intros u. exact IH.
Qed.

Lemma refs_ok_more_items d d' :
  transactions d' = transactions d ->
  (forall i, In i (map item_id (items d)) -> In i (map item_id (items d'))) ->
  refs_ok d -> refs_ok d'.
Proof.
  unfold refs_ok. intros Ht Hi H. rewrite Ht.
  eapply Forall_impl; [|exact H]. intros t. unfold trx_ref_ok.
  destruct (trx_item_id t); auto.
Qed.

Lemma upsert_item_refs n c u q m r e :
  hoare (fun w => refs_ok (w_db w)) (upsert_item n c u q m r e)
        (fun id w => refs_ok (w_db w) /\ id_known (w_db w) (Some id)).
Proof.
  intros w Hw.
  destruct (select_item (PyStr.strip n) u (w_db w)) as [row|] eqn:E.
  - rewrite (upsert_item_found _ _ _ _ _ _ _ _ _ E). cbn [fst snd].
    rewrite w_db_set_db.
    assert (Hids : map item_id (items (update_items (item_id row)
                     (upsert_update c (item_quantity row + q)%Q m r e
                        (w_clock w (w_clock_reads w))) (w_db w)))
                   = map item_id (items (w_db w))).
    { unfold update_items. simpl. apply map_update_stable. reflexivity. }
    split.
    + eapply refs_ok_more_items; [| |exact Hw]; [reflexivity|].
      intros i Hi. rewrite Hids. exact Hi.
    + unfold id_known. rewrite Hids. apply in_map.
      eapply select_item_In. exact E.
  - rewrite (upsert_item_new _ _ _ _ _ _ _ _ E). cbn [fst snd].
    rewrite w_db_set_db. split.
    + eapply refs_ok_more_items; [| |exact Hw]; [reflexivity|].
      intros i Hi. simpl. rewrite map_app. apply in_or_app. left. exact Hi.
    + unfold id_known. simpl. rewrite map_app. apply in_or_app. right.
      simpl. left. reflexivity.
Qed.

Lemma adjust_item_for_out_refs n u q :
  hoare (fun w => refs_ok (w_db w)) (adjust_item_for_out n u q)
        (fun res w => refs_ok (w_db w) /\ id_known (w_db w) (fst res)).
Proof.
  intros w Hw.
  destruct (select_item n u (w_db w)) as [row|] eqn:E.
  - destruct (Qltb (item_quantity row) q) eqn:Elt.
    + apply Qltb_true_iff in Elt.
      rewrite (adjust_item_for_out_short _ _ _ _ _ E Elt).
      split; [exact Hw | exact I].
    + apply Qltb_false_iff in Elt.
      rewrite (adjust_item_for_out_ok _ _ _ _ _ E Elt). cbn [fst snd].
      rewrite w_db_set_db.
      assert (Hids : map item_id (items (update_items (item_id row)
                       (set_quantity (item_quantity row - q)%Q) (w_db w)))
                     = map item_id (items (w_db w))).
      { unfold update_items. simpl. apply map_update_stable. reflexivity. }
      split.
      * eapply refs_ok_more_items; [| |exact Hw]; [reflexivity|].
        intros i Hi. rewrite Hids. exact Hi.
      * unfold id_known. rewrite Hids. apply in_map.
        eapply select_item_In. exact E.
  - rewrite (adjust_item_for_out_missing _ _ _ _ E).
    split; [exact Hw | exact I].
Qed.

Lemma add_transaction_record_refs ty id n q u rq sp note b c e :
  hoare (fun w => refs_ok (w_db w) /\ id_known (w_db w) id)
        (add_transaction_record ty id n q u rq sp note b c e)
        (fun _ w => refs_ok (w_db w)).
Proof.
  intros w [Hw Hid]. rewrite add_transaction_record_run. cbn [snd].
  rewrite w_db_set_db. unfold refs_ok. simpl.
  apply Forall_app. split; [exact Hw|].
  constructor; [|constructor]. exact Hid.
Qed.

Lemma generate_trx_code_refs ty :
  hoare (fun w => refs_ok (w_db w)) (generate_trx_code ty)
        (fun _ w => refs_ok (w_db w)).
Proof. intros w Hw. exact Hw. Qed.

Lemma run_op_refs op :
  hoare (fun w => refs_ok (w_db w)) (run_op op) (fun _ w => refs_ok (w_db w)).
Proof.
  destruct op as [n u q c m s r e | rows s note | n u q r note | rows r];
    simpl.
  - unfold in_single_submit.
    eapply hoare_bind; [apply generate_trx_code_refs|]. intros code.
    destruct (PyStr.falsy n || Qleb q 0 || PyStr.falsy u);
      [apply hoare_ret; auto|].
    eapply hoare_bind; [apply upsert_item_refs|]. intros id.
    eapply hoare_bind; [apply add_transaction_record_refs|]. intros u0.
    apply hoare_ret. auto.
  - unfold in_multi_submit.
    destruct rows as [|r0 rows0]; [apply hoare_ret; auto|].
    destruct (invalid_rows in_line_bad 0 (r0 :: rows0));
      [|apply hoare_ret; auto].
    eapply hoare_bind; [apply generate_trx_code_refs|]. intros code.
    eapply hoare_bind; [|intros u0; apply hoare_ret; intros w Hw; exact Hw].
    apply hoare_for_each. intros it.
    eapply hoare_bind; [apply upsert_item_refs|]. intros id.
    apply add_transaction_record_refs.
  - unfold out_single_submit.
    eapply hoare_bind; [apply generate_trx_code_refs|]. intros code.
    destruct (PyStr.falsy n || Qleb q 0 || PyStr.falsy u || PyStr.falsy r);
      [apply hoare_ret; auto|].
    intros w Hw. unfold bind at 1. unfold get_db at 1.
    destruct (select_item n u (w_db w)) as [row|]; [|exact Hw].
    destruct (Qltb (item_quantity row) q); [exact Hw|].
    revert w Hw. change (hoare (fun w => refs_ok (w_db w))
      (res <- adjust_item_for_out n u q ;;
       add_transaction_record "out" (fst res) n q u (Some r) None note code
         code None ;;; ret (Sukses code))
      (fun _ w => refs_ok (w_db w))).
    eapply hoare_bind; [apply adjust_item_for_out_refs|]. intros res.
    eapply hoare_bind; [apply add_transaction_record_refs|]. intros u0.
    apply hoare_ret. auto.
  - unfold out_multi_submit.
    destruct rows as [|r0 rows0]; [apply hoare_ret; auto|].
    destruct (PyStr.falsy r); [apply hoare_ret; auto|].
    destruct (invalid_rows out_line_bad 0 (r0 :: rows0));
      [|apply hoare_ret; auto].
    intros w Hw. unfold bind at 1. unfold get_db at 1.
    destruct (check_stock (w_db w) (r0 :: rows0)); [|exact Hw].
    revert w Hw. change (hoare (fun w => refs_ok (w_db w))
      (trx_code <- generate_trx_code "out" ;;
       for_each (r0 :: rows0) (fun it =>
         res <- adjust_item_for_out (ol_name it) (ol_unit it)
                  (ol_quantity it) ;;
         add_transaction_record "out" (fst res) (ol_name it) (ol_quantity it)
           (ol_unit it) (Some r) None (ol_note it) trx_code trx_code None) ;;;
       ret (Sukses trx_code))
      (fun _ w => refs_ok (w_db w))).
    eapply hoare_bind; [apply generate_trx_code_refs|]. intros code.
    eapply hoare_bind; [|intros u0; apply hoare_ret; intros w Hw; exact Hw].
    apply hoare_for_each. intros it.
    eapply hoare_bind; [apply adjust_item_for_out_refs|]. intros res.
    apply add_transaction_record_refs.
Qed.

Lemma run_store_op_refs op w :
  refs_ok (w_db w) -> refs_ok (w_db (run_store_op op w)).
Proof.
  destruct op as [o | df]; simpl.
  - intros Hw. exact (run_op_refs o w Hw).
  - apply (import_preserves (fun w => refs_ok (w_db w))).
    intros n c u q m r e w' Hw'.
    exact (proj1 (upsert_item_refs n c u q m r e w' Hw')).
Qed.

(** X25. In every state that forms and imports can reach from an empty
    database, the item reference of every movement of the log is either
    empty or the id of a row of the item store: no movement points to
    an item that is not there. *)
Theorem log_references_items w :
  reachable_store w ->
  Forall (fun t => forall id, trx_item_id t = Some id ->
                              exists it, In it (items (w_db w))
                                         /\ item_id it = id)
         (transactions (w_db w)).
Proof.
  intros Hr.
  assert (H : refs_ok (w_db w)).
  { induction Hr as [clock rnd | op w _ IH].
    - constructor.
    - apply run_store_op_refs. exact IH. }
  eapply Forall_impl; [|exact H].
  intros t Ht id Hid. unfold trx_ref_ok in Ht. rewrite Hid in Ht.
  apply in_map_iff in Ht. destruct Ht as [it [H1 H2]]. exists it. auto.
Qed.

Lemma log_references_items_witness :
  reachable_store w_AB_gula
  /\ Forall (fun t => forall id, trx_item_id t = Some id ->
                                 exists it, In it (items (w_db w_AB_gula))
                                            /\ item_id it = id)
            (transactions (w_db w_AB_gula)).
Proof.
  split; [exact reachable_store_w_AB_gula|].
  exact (log_references_items w_AB_gula reachable_store_w_AB_gula).
Defined.

(* ------------------------------------------------------------------ *)
(** * The stock against the log                                        *)
(* ------------------------------------------------------------------ *)













(* ------------------------------------------------------------------ *)
(** * More on the single-item forms                                    *)
(* ------------------------------------------------------------------ *)

(** X27. A single-item issue with its fields filled in, for a (name,
    unit) that the store does not have, shows 'Item tidak ditemukan di
    inventory' and writes to neither table. *)
Theorem out_single_submit_not_found w name unit quantity requester note :
  select_item name unit (w_db w) = None ->
  name <> "" -> unit <> "" -> requester <> "" -> (0 < quantity)%Q ->
  eval (out_single_submit name unit quantity requester note) w
  = ErrItemNotFound
  /\ w_db (exec (out_single_submit name unit quantity requester note) w)
     = w_db w.
Proof.
  intros Hnone Hn Hu Hr Hq.
  unfold eval, exec, out_single_submit, bind.
  rewrite generate_trx_code_run.
  apply falsy_false_iff in Hn, Hu, Hr. apply Qleb_false_iff in Hq.
  rewrite Hn, Hu, Hr, Hq. cbn [orb]. unfold get_db. cbn [w_db].
  rewrite Hnone. split; reflexivity.
Qed.

Lemma out_single_submit_not_found_witness :
  select_item "Gula" "kg" (w_db w_AB) = None
  /\ "Gula" <> "" /\ "kg" <> "" /\ "Budi" <> "" /\ (0 < 1)%Q
  /\ eval (out_single_submit "Gula" "kg" 1 "Budi" "") w_AB = ErrItemNotFound
  /\ w_db (exec (out_single_submit "Gula" "kg" 1 "Budi" "") w_AB) = w_db w_AB.
Proof.
  assert (H0 : select_item "Gula" "kg" (w_db w_AB) = None)
    by (vm_compute; reflexivity).
  assert (H1 : "Gula" <> "") by (intros H; discriminate H).
  assert (H2 : "kg" <> "") by (intros H; discriminate H).
  assert (H3 : "Budi" <> "") by (intros H; discriminate H).
  assert (H4 : (0 < 1)%Q) by reflexivity.
  repeat (split; [assumption|]).
  exact (out_single_submit_not_found w_AB "Gula" "kg" 1 "Budi" "" H0 H1 H2
           H3 H4).
Defined.

(** The descriptive fields of the row that [upsert_item] leaves behind
    are the ones it was called with, whether the row is new or not. *)
Lemma upsert_item_fields name category unit quantity min_stock rack expiry w :
  exists row',
    select_item (PyStr.strip name) unit
      (w_db (snd (upsert_item name category unit quantity min_stock rack
                    expiry w))) = Some row'
    /\ item_category row' = category
    /\ item_min_stock row' = min_stock
    /\ item_rack_location row' = rack
    /\ item_expiry_date row' = expiry
    /\ item_created_at row' = next_now w
    /\ item_updated_at row' = next_now w.
Proof.
  destruct (select_item (PyStr.strip name) unit (w_db w)) as [row|] eqn:E.
  - rewrite (upsert_item_found _ _ _ _ _ _ _ _ _ E). cbn [snd].
    rewrite w_db_set_db. rewrite select_update_items by reflexivity.
    rewrite E. simpl. rewrite Z.eqb_refl.
    eexists. split; [reflexivity|]. simpl. repeat split; reflexivity.
  - rewrite (upsert_item_new _ _ _ _ _ _ _ _ E). cbn [snd].
    rewrite w_db_set_db. unfold select_item. simpl.
    rewrite find_app_none by exact E.
    unfold item_matches. simpl. rewrite !String.eqb_refl. simpl.
    eexists. split; [reflexivity|]. simpl. repeat split; reflexivity.
Qed.

(** X28. A single-item receipt writes the descriptive fields of the
    form over those of the item, blank or not: afterwards the item has
    the category, minimum stock and rack location of the form; and it
    has no expiry date, whatever was typed in the expiry field of the
    form and whatever the item had before. The movement carries no
    expiry date either. *)
Theorem in_single_submit_overwrites w name unit quantity c m s r e :
  name <> "" -> unit <> "" -> (0 < quantity)%Q ->
  let w' := exec (in_single_submit name unit quantity c m s r e) w in
  (exists row,
     select_item (PyStr.strip name) unit (w_db w') = Some row
     /\ item_category row = c
     /\ item_min_stock row = m
     /\ item_rack_location row = r
     /\ item_expiry_date row = None)
  /\ (forall e', w_db (exec (in_single_submit name unit quantity c m s r e') w)
                 = w_db w')
  /\ exists t, transactions (w_db w') = (transactions (w_db w) ++ [t])%list
               /\ trx_expiry_date t = None.
Proof.
  intros Hn Hu Hq w'. subst w'. unfold exec.
  assert (Hrun : forall e0,
    in_single_submit name unit quantity c m s r e0 w
    = (let code := trx_code_text "in" (next_now w) (next_randint w) in
       let w1 := mkWorld (w_db w) (w_clock w) (S (w_clock_reads w))
                         (w_random w) (S (w_random_reads w)) in
       let res := upsert_item name c unit quantity m r None w1 in
       (Sukses code,
        snd (add_transaction_record "in" (Some (fst res)) name quantity unit
               None (Some s) "Single-item masuk" code code None (snd res))))).
  { intros e0. unfold in_single_submit. unfold bind at 1.
    rewrite generate_trx_code_run.
    pose proof Hn as Hn'. pose proof Hu as Hu'. pose proof Hq as Hq'.
    apply falsy_false_iff in Hn', Hu'. apply Qleb_false_iff in Hq'.
    rewrite Hn', Hu', Hq'. cbn [orb]. unfold bind. cbv zeta.
    destruct (upsert_item name c unit quantity m r None _) as [id w2].
    rewrite add_transaction_record_run. reflexivity. }
  split; [|split].
  - rewrite Hrun. cbv zeta. cbn [snd].
    match goal with
    | |- context [upsert_item name c unit quantity m r None ?W] =>
        destruct (upsert_item_fields name c unit quantity m r None W)
          as [row [Hsel [H1 [H2 [H3 [H4 _]]]]]]
    end.
    exists row. split; [exact Hsel|]. auto.
  - intros e'. rewrite (Hrun e'), (Hrun e). reflexivity.
  - rewrite Hrun. cbv zeta. cbn [snd].
    match goal with
    | |- context [upsert_item name c unit quantity m r None ?W] =>
        destruct (upsert_item_log name c unit quantity m r None W)
          as [Hlog _];
        destruct (upsert_item name c unit quantity m r None W) as [id w2]
    end.
    simpl in Hlog. rewrite add_transaction_record_run. cbn [snd fst].
    rewrite w_db_set_db. simpl. rewrite Hlog. eexists.
    split; reflexivity.
Qed.

Lemma in_single_submit_overwrites_witness :
  "A" <> "" /\ "pcs" <> "" /\ (0 < 2)%Q
  /\ (exists row,
        select_item (PyStr.strip "A") "pcs"
          (w_db (exec (in_single_submit "A" "pcs" 2 "" 0 "" "" "2025-01-01")
                   w_AB)) = Some row
        /\ item_category row = ""
        /\ item_min_stock row = 0%Q
        /\ item_rack_location row = ""
        /\ item_expiry_date row = None).
Proof.
  assert (H1 : "A" <> "") by (intros H; discriminate H).
  assert (H2 : "pcs" <> "") by (intros H; discriminate H).
  assert (H3 : (0 < 2)%Q) by reflexivity.
  split; [exact H1|]. split; [exact H2|]. split; [exact H3|].
  destruct (in_single_submit_overwrites w_AB "A" "pcs" 2 "" 0 "" ""
              "2025-01-01" H1 H2 H3) as [Ha _].
  exact Ha.
Defined.
